(** * Bundle-size report comparison ([compare.js])

    A shallow embedding of the script that compares the bundle-size report of
    the current branch with the one of the base branch and renders a markdown
    comment.

    Numeric model.  Byte counts ([raw], [gzip], the budget, the minimum change
    threshold) are integers in the reports and in the configuration; they are
    modelled by [Z], which agrees with the double-precision arithmetic of the
    script on integers below 2^53.  Percentages are produced by a division and
    are modelled by the binary64 numbers of the kernel ([PrimFloat]), so that
    [/], [*], [-], [<] and [>=] are the operations the script executes.

    Texts are byte strings holding UTF-8.  The [filesize] and
    [number-to-words] packages and the conversion of a number to a string are
    taken from a [Host]; the options of [package.json] and the two reports
    are the inputs of a run. *)

From Stdlib Require Import ZArith List String Ascii Bool Lia Floats.
From Stdlib Require Import DecimalString.
Import ListNotations.

Open Scope string_scope.
Open Scope Z_scope.

(** ** Numbers *)

Module JS.

(** The number denoted by an integer literal or integer-valued property:
    the nearest binary64 value. *)
Definition ofZ (z : Z) : float :=
  SF2Prim (binary_normalize prec emax z 0 false).

Definition hundred : float := Eval cbv in ofZ 100.

(** The literal [0.01] is the double nearest to 1/100, which is what the
    correctly rounded quotient gives. *)
Definition cent : float := Eval cbv in (ofZ 1 / ofZ 100)%float.

(** The result of [x.toFixed(2)].  It is a string; it is kept structured so
    that converting it back to a number needs no parser:
    - [FixedDec neg n] is the text of n/100 written with two decimals, with a
      minus sign when [neg];
    - [FixedStr x] is [Number::toString x], which [toFixed] returns for a
      non-finite [x] and for a magnitude of 1e21 or more. *)
Inductive fixed : Type :=
| FixedDec (neg : bool) (n : Z)
| FixedStr (x : float).

(** The integer [n] for which [n / 100 - m * 2^e] is as close to zero as
    possible, the larger one when there are two. *)
Definition nearest_centi (m : positive) (e : Z) : Z :=
  match e with
  | Zneg k => (200 * Zpos m + 2 ^ Zpos k) / 2 ^ (Zpos k + 1)
  | _ => 100 * Zpos m * 2 ^ e
  end.

Definition toFixed2 (x : float) : fixed :=
  match Prim2SF x with
  | S754_nan => FixedStr x
  | S754_infinity _ => FixedStr x
  | S754_zero _ => FixedDec false 0
  | S754_finite s m e =>
      if (ofZ (10 ^ 21) <=? abs x)%float then FixedStr x
      else FixedDec s (nearest_centi m e)
  end.

(** A value that is either a number or the string a [toFixed] call returned:
    [budgetPercentage], [previousBudgetPercentage] and [budgetChange] are
    [0] or such a string. *)
Inductive value : Type :=
| VNum (x : float)
| VFixed (s : fixed).

(** [ToNumber].  The text of [FixedDec neg n] denotes n/100; for n below 2^53
    the quotient of the two doubles is its correctly rounded value.
    [Number::toString] round-trips. *)
Definition ToNumber (v : value) : float :=
  match v with
  | VNum x => x
  | VFixed (FixedStr x) => x
  | VFixed (FixedDec neg n) =>
      let q := (ofZ n / hundred)%float in
      if neg then (- q)%float else q
  end.

(** [ToBoolean]: a number is falsy when it is zero or NaN; the strings of
    [toFixed] are never empty. *)
Definition ToBoolean (v : value) : bool :=
  match v with
  | VNum x => negb ((x =? 0)%float || is_nan x)
  | VFixed _ => true
  end.

(** An integer-valued number in a condition: falsy exactly at zero. *)
Definition truthyZ (z : Z) : bool := negb (z =? 0).

(** A possibly absent integer-valued property in a condition. *)
Definition truthyOptZ (o : option Z) : bool :=
  match o with
  | Some z => truthyZ z
  | None => false
  end.

Definition isSome {A : Type} (o : option A) : bool :=
  match o with
  | Some _ => true
  | None => false
  end.

End JS.

(** ** Strings

    Strings are sequences of bytes holding UTF-8 text. *)

Module Str.

Definition dq : string := String (ascii_of_nat 34) EmptyString.
Definition nl : string := String (ascii_of_nat 10) EmptyString.

Definition digit (n : Z) : ascii := ascii_of_nat (48 + Z.to_nat n).

Definition ofN (n : Z) : string := NilZero.string_of_uint (N.to_uint (Z.to_N n)).

(** The text of a non-negative number of hundredths, with two decimals. *)
Definition centi (n : Z) : string :=
  ofN (n / 100) ++ "." ++
  String (digit ((n mod 100) / 10)) (String (digit (n mod 10)) EmptyString).

Definition byte (c : ascii) : nat := nat_of_ascii c.

(** White space and line terminators of one byte:
    U+0009 to U+000D, and U+0020. *)
Definition ws1 (a : ascii) : bool :=
  ((9 <=? byte a) && (byte a <=? 13) || (byte a =? 32))%nat.

(** U+00A0. *)
Definition ws2 (a b : ascii) : bool :=
  ((byte a =? 194) && (byte b =? 160))%nat.

(** U+1680, U+2000 to U+200A, U+2028, U+2029, U+202F, U+205F, U+3000 and
    U+FEFF. *)
Definition ws3 (a b c : ascii) : bool :=
  (((byte a =? 225) && (byte b =? 154) && (byte c =? 128))
   || ((byte a =? 226) && (byte b =? 128)
         && (((128 <=? byte c) && (byte c <=? 138))
             || (byte c =? 168) || (byte c =? 169) || (byte c =? 175)))
   || ((byte a =? 226) && (byte b =? 129) && (byte c =? 159))
   || ((byte a =? 227) && (byte b =? 128) && (byte c =? 128))
   || ((byte a =? 239) && (byte b =? 187) && (byte c =? 191)))%nat.

(** Drops the white space at the head of a byte sequence.  With [back] the
    sequence is read from its end, so the bytes of a character come in the
    opposite order. *)
Fixpoint dropWs (back : bool) (l : list ascii) {struct l} : list ascii :=
  match l with
  | [] => []
  | a :: r1 =>
      if ws1 a then dropWs back r1
      else
        match r1 with
        | [] => l
        | b :: r2 =>
            if (if back then ws2 b a else ws2 a b) then dropWs back r2
            else
              match r2 with
              | [] => l
              | c :: r3 =>
                  if (if back then ws3 c b a else ws3 a b c)
                  then dropWs back r3
                  else l
              end
        end
  end.

(** [String.prototype.trim]. *)
Definition trim (s : string) : string :=
  string_of_list_ascii
    (rev (dropWs true (rev (dropWs false (list_ascii_of_string s))))).

Definition isUpper (c : ascii) : bool := ((65 <=? byte c) && (byte c <=? 90))%nat.
Definition isLower (c : ascii) : bool := ((97 <=? byte c) && (byte c <=? 122))%nat.
Definition isDigit (c : ascii) : bool := ((48 <=? byte c) && (byte c <=? 57))%nat.

(** The class [\w]. *)
Definition isWord (c : ascii) : bool :=
  isUpper c || isLower c || isDigit c || (byte c =? 95)%nat.

Definition toUpper (c : ascii) : ascii :=
  if isLower c then ascii_of_nat (byte c - 32) else c.
Definition toLower (c : ascii) : ascii :=
  if isUpper c then ascii_of_nat (byte c + 32) else c.

(** [s ends with t]. *)
Definition endsWith (s t : string) : Prop := exists p, s = p ++ t.

End Str.

(** ** Data model *)

(** [BundleStats]: the sizes of one bundle. *)
Record stats : Type := { raw : Z; gzip : Z }.

(** A report, as loaded: the own properties of the object in enumeration
    order.  The keys of an object are pairwise distinct. *)
Definition report : Type := list (string * stats).

(** The own entry of [r] under [k]: what [r[k]] gives when [r] holds the key
    [k] itself, as it does for the keys of [r] and for [__global], which
    Object.prototype does not define. *)
Fixpoint get (r : report) (k : string) : option stats :=
  match r with
  | [] => None
  | (k', v) :: r' => if String.eqb k' k then Some v else get r' k
  end.

(** [delete r[k]]. *)
Definition del (k : string) (r : report) : report :=
  filter (fun e => negb (String.eqb (fst e) k)) r.

(** The keys [for (let page in r)] goes through. *)
Definition keys (r : report) : list string := map fst r.

(** The string-keyed members of Object.prototype, which every report
    inherits. *)
Definition objectPrototype : list string :=
  [ "constructor"; "__defineGetter__"; "__defineSetter__"; "hasOwnProperty";
    "__lookupGetter__"; "__lookupSetter__"; "isPrototypeOf";
    "propertyIsEnumerable"; "toString"; "valueOf"; "__proto__";
    "toLocaleString" ].

(** What [r[k]] finds: an own entry; or a member inherited from
    Object.prototype, which is a function, or the prototype itself under
    [__proto__], so it is truthy and has neither [raw] nor [gzip]; or
    [undefined]. *)
Inductive member : Type :=
| Own (s : stats)
| Inherited
| Undefined.

(** [r[k]], through the prototype chain. *)
Definition read (r : report) (k : string) : member :=
  match get r k with
  | Some s => Own s
  | None => if existsb (String.eqb k) objectPrototype then Inherited
            else Undefined
  end.

(** [m.raw] and [m.gzip] of a member that is not [undefined]; [None] is
    [undefined]. *)
Definition rawOf (m : member) : option Z :=
  match m with
  | Own s => Some (raw s)
  | _ => None
  end.

Definition gzipOf (m : member) : option Z :=
  match m with
  | Own s => Some (gzip s)
  | _ => None
  end.

(** A difference of two sizes: an integer, or NaN when the size taken away
    is [undefined]. *)
Inductive diff : Type :=
| Diff (z : Z)
| NaN.

(** [a - b]. *)
Definition minus (a : Z) (b : option Z) : diff :=
  match b with
  | Some b => Diff (a - b)
  | None => NaN
  end.

(** [a !== b]. *)
Definition differs (a : Z) (b : option Z) : bool :=
  match b with
  | Some b => negb (a =? b)
  | None => true
  end.

(** [!!Math.sign(d)]. *)
Definition signTruthy (d : diff) : bool :=
  match d with
  | Diff z => negb (Z.sgn z =? 0)
  | NaN => false
  end.

(** An entry of a table: [{ page, raw, gzip }] for a new page, with [rawDiff],
    [gzipDiff] and [increase] for a changed page, and without [rawDiff] for
    the global bundle.  An absent property is [None]. *)
Record pageDiff : Type := {
  page : string;
  d_raw : Z;
  d_gzip : Z;
  rawDiff : option diff;
  gzipDiff : option diff;
  increase : option bool
}.

(** The options of [package.json], as [getOptions] returns them. *)
Record options : Type := {
  budget : option Z;
  budgetPercentIncreaseRed : float;
  showDetails : option bool;
  buildOutputDirectory : string;
  name : string;
  skipCommentIfEmpty : bool;
  minimumChangeThreshold : option Z
}.

(** What the script takes from its libraries and from the host:
    [filesize] (with its [spacer] option), [numberToWords.toWords] and the
    conversion of a number to a string. *)
Class Host : Type := {
  originalFilesize : Z -> string -> string;
  toWords : nat -> string;
  numberToString : float -> string
}.

(** The ways the script dies: [require] throws on a missing or malformed
    report, and reading a property of [undefined] throws a [TypeError]. *)
Inductive error : Type := LoadError | TypeError.

(** The outcome of a run: an uncaught exception, or the text given to
    [console.log] and the file written, with the directory it is under, its
    name and its content. *)
Inductive outcome : Type :=
| Fatal (e : error)
| Done (log : string) (dir file content : string).

Definition exitStatus (o : outcome) : Z :=
  match o with
  | Fatal _ => 1
  | Done _ _ _ _ => 0
  end.

Definition logged (o : outcome) : option string :=
  match o with
  | Fatal _ => None
  | Done log _ _ _ => Some log
  end.

Definition written (o : outcome) : option string :=
  match o with
  | Fatal _ => None
  | Done _ _ _ content => Some content
  end.

(** ** The script *)

Section Compare.

Context {host : Host}.
Variable opts : options.

Import JS.

Definition BUDGET : option Z := budget opts.
Definition BUDGET_PERCENT_INCREASE_RED : float := budgetPercentIncreaseRed opts.
Definition SHOW_DETAILS : bool :=
  match showDetails opts with
  | None => true
  | Some b => b
  end.
Definition BUILD_OUTPUT_DIRECTORY : string := buildOutputDirectory opts.
Definition PACKAGE_NAME : string := name opts.
Definition SKIP_COMMENT_IF_EMPTY : bool := skipCommentIfEmpty opts.

(** [BUDGET] as an operand of [/]: [undefined] converts to NaN. *)
Definition budgetNumber : float :=
  match BUDGET with
  | Some b => ofZ b
  | None => nan
  end.

Definition nbsp : string :=
  String (ascii_of_nat 194) (String (ascii_of_nat 160) EmptyString).

Definition filesize (bytes : Z) : string := originalFilesize bytes nbsp.

(** The text of a value inside a template. *)
Definition text (v : value) : string :=
  match v with
  | VNum x => numberToString x
  | VFixed (FixedStr x) => numberToString x
  | VFixed (FixedDec neg n) => (if neg then "-" else EmptyString) ++ Str.centi n
  end.

Definition yellow : string := "🟡 +".
Definition red : string := "🔴 +".
Definition green : string := "🟢 ".

Definition renderStatusIndicator (percentageChange : value) : string :=
  let x := ToNumber percentageChange in
  if ((0 <? x) && (x <? BUDGET_PERCENT_INCREASE_RED))%float then yellow
  else if (BUDGET_PERCENT_INCREASE_RED <=? x)%float then red
  else if ((x <? cent) && (- cent <? x))%float then EmptyString
  else green.

Definition negligible : string := "+/- <0.01%".

Definition renderBudgetPercentage (showBudget : bool)
    (budgetPercentage previousBudgetPercentage budgetChange : value) : string :=
  if negb showBudget then EmptyString
  else
    let budgetChangeText :=
      " _(" ++ renderStatusIndicator budgetChange
        ++ (if ((ToNumber budgetChange <? cent)
                && (- cent <? ToNumber budgetChange))%float
            then negligible
            else text budgetChange ++ "%")
        ++ ")_" in
    " | " ++ text budgetPercentage ++ "%"
      ++ (if ToBoolean previousBudgetPercentage then budgetChangeText
          else EmptyString).

Definition percentChange (gzd gz : Z) : float :=
  ((ofZ gzd / ofZ gz) * hundred)%float.

Definition renderSize (d : pageDiff) (showBudgetDiff : bool) : string :=
  " | `" ++ filesize (d_gzip d) ++ "`"
    ++ match gzipDiff d with
       | Some (Diff gzd) =>
           if truthyZ gzd && negb showBudgetDiff
           then " _(" ++ renderStatusIndicator (VNum (percentChange gzd (d_gzip d)))
                  ++ filesize gzd ++ ")_"
           else EmptyString
       | Some NaN => EmptyString (* NaN is falsy *)
       | None => EmptyString
       end.

Definition renderFirstLoad (globalBundleCurrent : option stats)
    (firstLoadSize : Z) : string :=
  match globalBundleCurrent with
  | None => EmptyString
  | Some _ => " | " ++ filesize firstLoadSize
  end.

(** The calculations run upfront for a row of [markdownTable]. *)
Record calculations : Type := {
  firstLoadSize : Z;
  budgetPercentage : value;
  previousBudgetPercentage : value;
  budgetChange : value
}.

Definition percentOfBudget (size : Z) : value :=
  VFixed (toFixed2 ((ofZ size / budgetNumber) * hundred)%float).

(** [None] is the [TypeError] of [globalBundleCurrent.gzip] when the base
    global bundle is passed without the current one. *)
Definition calculate (globalBundleCurrent globalBundleBase : option stats)
    (d : pageDiff) : option calculations :=
  let showBudget := isSome globalBundleCurrent && truthyOptZ BUDGET in
  let firstLoadSize :=
    match globalBundleCurrent with
    | Some g => d_gzip d + gzip g
    | None => 0
    end in
  let budgetPercentage :=
    if showBudget then percentOfBudget firstLoadSize else VNum 0%float in
  let previous :=
    match gzipDiff d with
    | Some (Diff gzd) =>
        if isSome globalBundleBase && truthyZ gzd
        then match globalBundleCurrent with
             | Some g => Some (percentOfBudget (gzip g + d_gzip d + gzd))
             | None => None
             end
        else Some (VNum 0%float)
    | Some NaN => Some (VNum 0%float) (* NaN is falsy *)
    | None => Some (VNum 0%float)
    end in
  match previous with
  | None => None
  | Some previousBudgetPercentage =>
      let budgetChange :=
        if ToBoolean previousBudgetPercentage
        then VFixed (toFixed2 (ToNumber previousBudgetPercentage
                               - ToNumber budgetPercentage)%float)
        else VNum 0%float in
      Some {| firstLoadSize := firstLoadSize;
              budgetPercentage := budgetPercentage;
              previousBudgetPercentage := previousBudgetPercentage;
              budgetChange := budgetChange |}
  end.

Definition renderRow (globalBundleCurrent globalBundleBase : option stats)
    (d : pageDiff) : option string :=
  let showBudget := isSome globalBundleCurrent && truthyOptZ BUDGET in
  let showBudgetDiff := truthyOptZ BUDGET && isSome globalBundleBase in
  match calculate globalBundleCurrent globalBundleBase d with
  | None => None
  | Some c =>
      Some ("| `" ++ page d ++ "`"
            ++ renderSize d showBudgetDiff
            ++ renderFirstLoad globalBundleCurrent (firstLoadSize c)
            ++ renderBudgetPercentage showBudget (budgetPercentage c)
                 (previousBudgetPercentage c) (budgetChange c)
            ++ " |" ++ Str.nl)
  end.

(** [data.map(...).join('')]. *)
Fixpoint renderRows (globalBundleCurrent globalBundleBase : option stats)
    (data : list pageDiff) : option string :=
  match data with
  | [] => Some EmptyString
  | d :: data' =>
      match renderRow globalBundleCurrent globalBundleBase d with
      | None => None
      | Some r =>
          match renderRows globalBundleCurrent globalBundleBase data' with
          | None => None
          | Some rs => Some (r ++ rs)
          end
      end
  end.

Definition markdownTable (data : list pageDiff)
    (globalBundleCurrent globalBundleBase : option stats) : option string :=
  let showBudget := isSome globalBundleCurrent && truthyOptZ BUDGET in
  match renderRows globalBundleCurrent globalBundleBase data with
  | None => None
  | Some rows =>
      Some ("Page | Size (compressed) | "
            ++ (if isSome globalBundleCurrent then "First Load |" else EmptyString)
            ++ (if showBudget
                then " % of Budget (`"
                       ++ match BUDGET with
                          | Some b => filesize b
                          | None => EmptyString
                          end
                       ++ "`) |"
                else EmptyString)
            ++ Str.nl
            ++ "|---|---|"
            ++ (if isSome globalBundleCurrent then "---|" else EmptyString)
            ++ (if showBudget then "---|" else EmptyString)
            ++ Str.nl
            ++ rows)
  end.

(** [str.replace(/\w\S*/g, ...)] on ASCII text, the range of [toWords]:
    [inside] tells that the scan is within a match. *)
Fixpoint titleCaseFrom (inside : bool) (s : string) : string :=
  match s with
  | EmptyString => EmptyString
  | String c r =>
      if inside then
        if Str.ws1 c then String c (titleCaseFrom false r)
        else String (Str.toLower c) (titleCaseFrom true r)
      else if Str.isWord c then String (Str.toUpper c) (titleCaseFrom true r)
      else String c (titleCaseFrom false r)
  end.

Definition titleCase (str : string) : string := titleCaseFrom false str.
Definition globalDetails : string :=
  "
<details>
<summary>Details</summary>
<p>The <strong>global bundle</strong> is the javascript bundle that loads alongside every page. It is in its own category because its impact is much higher - an increase to its size means that every page on your website loads slower, and a decrease means every page loads faster.</p>
<p>Any third party scripts you have added directly to your app using the <code>&lt;script&gt;</code> tag are not accounted for in this analysis</p>
<p>If you want further insight into what is behind the changes, give <a href='https://www.npmjs.com/package/@next/bundle-analyzer'>@next/bundle-analyzer</a> a try!</p>
</details>

".

Definition changedDetailsHead : string :=
  "
<details>
<summary>Details</summary>
<p>Only the gzipped size is provided here based on <a href='https://twitter.com/slightlylate/status/1412851269211811845'>an expert tip</a>.</p>
<p><strong>First Load</strong> is the size of the global bundle plus the bundle for the individual page. If a user were to show up to your website and land on a given page, the first load size represents the amount of javascript that user would need to download. If <code>next/link</code> is used, subsequent page loads would only need to download that page's bundle (the number in the " ++ Str.dq ++ "Size" ++ Str.dq ++ " column), since the global bundle has already been downloaded.</p>
<p>Any third party scripts you have added directly to your app using the <code>&lt;script&gt;</code> tag are not accounted for in this analysis</p>
".

Definition budgetDetails : string :=
  "<p>The " ++ Str.dq ++ "Budget %" ++ Str.dq ++ " column shows what percentage of your performance budget the <strong>First Load</strong> total takes up. For example, if your budget was 100kb, and a given page's first load size was 10kb, it would be 10% of your budget. You can also see how much this has increased or decreased compared to the base branch of your PR. If this percentage has increased by " ++ numberToString BUDGET_PERCENT_INCREASE_RED ++ "% or more, there will be a red status indicator applied, indicating that special attention should be given to this. If you see " ++ Str.dq ++ "+/- <0.01%" ++ Str.dq ++ " it means that there was a change in bundle size, but it is a trivial enough amount that it can be ignored.</p>".

Definition sizeDetails : string :=
  "<p>Next to the size is how much the size has increased or decreased compared with the base branch of this PR. If this percentage has increased by " ++ numberToString BUDGET_PERCENT_INCREASE_RED ++ "% or more, there will be a red status indicator applied, indicating that special attention should be given to this.".

Definition changedDetailsTail : string :=
  "
</details>
".

Definition header : string :=
  "## 📦 Next.js Bundle Analysis for " ++ PACKAGE_NAME ++ "

This analysis was generated by the [Next.js Bundle Analysis action](https://github.com/hashicorp/nextjs-bundle-analysis). 🤖

".

Definition sentinel : string :=
  "This PR introduced no changes to the JavaScript bundle! 🙌".

(** The tag by which the action finds the comment to edit. *)
Definition marker : string :=
  "<!-- __NEXTJS_BUNDLE_" ++ PACKAGE_NAME ++ " -->".

(** No minimum change threshold is configured, or the change is greater than
    the threshold. *)
Definition aboveThreshold (diff : Z) : bool :=
  match minimumChangeThreshold opts with
  | None => true
  | Some t => Z.abs diff >? t
  end.

(** [globalBundleChanges]: [None] is [false]. *)
Definition globalBundleChanges (globalBundleCurrent globalBundleBase : stats)
    : option pageDiff :=
  let globalGzipDiff := gzip globalBundleCurrent - gzip globalBundleBase in
  if negb (globalGzipDiff =? 0) && aboveThreshold globalGzipDiff
  then Some {| page := "global";
               d_raw := raw globalBundleCurrent;
               d_gzip := gzip globalBundleCurrent;
               rawDiff := None;
               gzipDiff := Some (Diff globalGzipDiff);
               increase := Some (Z.sgn globalGzipDiff >? 0) |}
  else None.

(** The same test on a difference that may be NaN: [Math.abs(NaN) > t] is
    false. *)
Definition aboveThresholdDiff (d : diff) : bool :=
  match d with
  | Diff z => aboveThreshold z
  | NaN => match minimumChangeThreshold opts with
           | None => true
           | Some _ => false
           end
  end.

(** The body of the loop over the pages of the current bundle, on the pair
    of [changedPages] and [newPages]. *)
Definition analyse (currentBundle baseBundle : report)
    (acc : list pageDiff * list pageDiff) (p : string)
    : list pageDiff * list pageDiff :=
  let (changedPages, newPages) := acc in
  match get currentBundle p with
  | None => acc (* a key of the object has a value *)
  | Some currentStats =>
      match read baseBundle p with
      | Undefined =>
          (changedPages,
           (newPages ++ [ {| page := p;
                             d_raw := raw currentStats;
                             d_gzip := gzip currentStats;
                             rawDiff := None;
                             gzipDiff := None;
                             increase := None |} ])%list)
      | baseStats =>
          if differs (gzip currentStats) (gzipOf baseStats) then
            let rawDiff' := minus (raw currentStats) (rawOf baseStats) in
            let gzipDiff' := minus (gzip currentStats) (gzipOf baseStats) in
            let increase' := signTruthy gzipDiff' in
            if aboveThresholdDiff gzipDiff'
            then ((changedPages ++ [ {| page := p;
                                        d_raw := raw currentStats;
                                        d_gzip := gzip currentStats;
                                        rawDiff := Some rawDiff';
                                        gzipDiff := Some gzipDiff';
                                        increase := Some increase' |} ])%list,
                  newPages)
            else acc
          else acc
      end
  end.

Definition analysePages (currentBundle baseBundle : report)
    : list pageDiff * list pageDiff :=
  fold_left (analyse currentBundle baseBundle) (keys currentBundle) ([], []).

Definition changedPages (currentBundle baseBundle : report) : list pageDiff :=
  fst (analysePages currentBundle baseBundle).

Definition newPages (currentBundle baseBundle : report) : list pageDiff :=
  snd (analysePages currentBundle baseBundle).

Definition isTrue (o : option bool) : bool :=
  match o with
  | Some b => b
  | None => false
  end.

Definition globalSection (changes : option pageDiff) : option string :=
  match changes with
  | None => Some EmptyString
  | Some g =>
      match markdownTable [g] None None with
      | None => None
      | Some table =>
          Some ("### " ++ (if isTrue (increase g) then "⚠️" else "🎉")
                ++ "  Global Bundle Size "
                ++ (if isTrue (increase g) then "Increased" else "Decreased")
                ++ "
  
"
                ++ table
                ++ (if SHOW_DETAILS then globalDetails else EmptyString))
      end
  end.

Definition newSection (newPages : list pageDiff) (globalBundleCurrent : stats)
    : option string :=
  if (List.length newPages =? 0)%nat then Some EmptyString
  else
    let plural := if (1 <? List.length newPages)%nat then "s" else EmptyString in
    match markdownTable newPages (Some globalBundleCurrent) None with
    | None => None
    | Some table =>
        Some ("### New Page" ++ plural ++ " Added
  
The following page" ++ plural ++ " "
              ++ (if String.eqb plural "s" then "were" else "was")
              ++ " added to the bundle from the code in this PR:

"
              ++ table ++ Str.nl)
    end.

Definition changedSection (changedPages : list pageDiff)
    (globalBundleCurrent globalBundleBase : stats) : option string :=
  if (List.length changedPages =? 0)%nat then Some EmptyString
  else
    let plural := if (1 <? List.length changedPages)%nat then "s" else EmptyString in
    match markdownTable changedPages (Some globalBundleCurrent)
            (Some globalBundleBase) with
    | None => None
    | Some table =>
        Some ("### " ++ titleCase (toWords (List.length changedPages))
              ++ " Page" ++ plural ++ " Changed Size
  
The following page" ++ plural
              ++ " changed size from the code in this PR compared to its base branch:

"
              ++ table
              ++ (if SHOW_DETAILS
                  then changedDetailsHead
                         ++ (if truthyOptZ BUDGET
                                && isSome (Some globalBundleCurrent)
                             then budgetDetails
                             else sizeDetails)
                         ++ changedDetailsTail
                  else EmptyString))
    end.

Definition hasNoChanges (changedPages newPages : list pageDiff)
    (changes : option pageDiff) : bool :=
  (List.length newPages =? 0)%nat && (List.length changedPages =? 0)%nat
  && negb (isSome changes).

Definition commentFile : string := "analyze/__bundle_analysis_comment.txt".

(** The whole script, from the two reports [require] returns: [None] is a
    report that is missing or that is not valid JSON. *)
Definition compare (current base : option report) : outcome :=
  match current with
  | None => Fatal LoadError
  | Some currentBundle =>
  match base with
  | None => Fatal LoadError
  | Some baseBundle =>
  match get currentBundle "__global", get baseBundle "__global" with
  | Some globalBundleCurrent, Some globalBundleBase =>
      let currentBundle := del "__global" currentBundle in
      let baseBundle := del "__global" baseBundle in
      let changes := globalBundleChanges globalBundleCurrent globalBundleBase in
      let changed := changedPages currentBundle baseBundle in
      let new := newPages currentBundle baseBundle in
      match globalSection changes,
            newSection new globalBundleCurrent,
            changedSection changed globalBundleCurrent globalBundleBase with
      | Some sg, Some sn, Some sc =>
          let none := hasNoChanges changed new changes in
          let output :=
            header ++ sg ++ sn ++ sc
              ++ (if none then sentinel else EmptyString) ++ marker in
          let output :=
            if none && SKIP_COMMENT_IF_EMPTY then EmptyString else output in
          Done output BUILD_OUTPUT_DIRECTORY commentFile (Str.trim output)
      | _, _, _ => Fatal TypeError
      end
  | _, _ => Fatal TypeError
  end
  end
  end.

End Compare.

(** ** Loading, logging and writing

    The script reaches the world through [require], [console.log] and
    [fs.writeFileSync]. *)

(** A path, by the segments given to [path.join]. *)
Definition path : Type := list string.

(** The files, by path, and the lines logged. *)
Record world : Type := {
  files : list (path * string);
  consoleLines : list string
}.

(** What Node provides: the working directory, and the parser that [require]
    applies to the text of a [.json] file, [None] for a text that is not
    valid JSON. *)
Class Node : Type := {
  cwd : string;
  parseJSON : string -> option report
}.

(** A computation either returns a value or throws, in a world. *)
Inductive result (A : Type) : Type :=
| Returns (a : A) (w : world)
| Throws (e : error) (w : world).

Arguments Returns {A} a w.
Arguments Throws {A} e w.

Definition action (A : Type) : Type := world -> result A.

Definition bind {A B : Type} (c : action A) (k : A -> action B) : action B :=
  fun w =>
    match c w with
    | Returns a w' => k a w'
    | Throws e w' => Throws e w'
    end.

Definition throw {A : Type} (e : error) : action A := fun w => Throws e w.

(** The exit status of the process: an uncaught exception gives 1. *)
Definition exitCode {A : Type} (r : result A) : Z :=
  match r with
  | Returns _ _ => 0
  | Throws _ _ => 1
  end.

Fixpoint readFile (p : path) (fs : list (path * string)) : option string :=
  match fs with
  | [] => None
  | (q, content) :: fs' =>
      if list_eq_dec string_dec q p then Some content else readFile p fs'
  end.

Section Script.

Context {host : Host} {node : Node}.
Variable opts : options.

(** [require] of a [.json] file: it throws when there is no such file and
    when the text of the file does not parse. *)
Definition require (p : path) : action report :=
  fun w =>
    match readFile p (files w) with
    | None => Throws LoadError w
    | Some content =>
        match parseJSON content with
        | None => Throws LoadError w
        | Some r => Returns r w
        end
    end.

Definition consoleLog (line : string) : action unit :=
  fun w =>
    Returns tt {| files := files w;
                  consoleLines := (consoleLines w ++ [line])%list |}.

Definition writeFileSync (p : path) (content : string) : action unit :=
  fun w =>
    Returns tt {| files := (p, content) :: files w;
                  consoleLines := consoleLines w |}.

Definition currentReport : path :=
  [cwd; BUILD_OUTPUT_DIRECTORY opts; "analyze/__bundle_analysis.json"].

Definition baseReport : path :=
  [cwd; BUILD_OUTPUT_DIRECTORY opts;
   "analyze/base/bundle/__bundle_analysis.json"].

(** The script in the order it runs: the two reports are loaded, the comment
    is computed, logged and written. *)
Definition script : action unit :=
  bind (require currentReport) (fun currentBundle =>
  bind (require baseReport) (fun baseBundle =>
  match compare opts (Some currentBundle) (Some baseBundle) with
  | Fatal e => throw e
  | Done output dir file content =>
      bind (consoleLog output) (fun _ =>
      writeFileSync [cwd; dir; file] content)
  end)).

(** The report at a path can be loaded. *)
Definition loads (p : path) (w : world) (r : report) : Prop :=
  exists content,
    readFile p (files w) = Some content /\ parseJSON content = Some r.

End Script.

(** ** Definitions used by the statements *)

(** The order of two positive finite numbers, by exponent and then by
    mantissa. *)
Definition lex (e1 : Z) (m1 : positive) (e2 : Z) (m2 : positive) : comparison :=
  match Z.compare e1 e2 with
  | Lt => Lt
  | Gt => Gt
  | Eq => Pos.compare_cont Eq m1 m2
  end.

Definition SFisNaN (x : spec_float) : bool :=
  match x with
  | S754_nan => true
  | _ => false
  end.

(** What the loop records for a new page [d]. *)
Definition newEntry (currentBundle baseBundle : report) (d : pageDiff) : Prop :=
  In (page d) (keys currentBundle)
  /\ exists currentStats,
       get currentBundle (page d) = Some currentStats
       /\ read baseBundle (page d) = Undefined
       /\ d = {| page := page d;
                 d_raw := raw currentStats;
                 d_gzip := gzip currentStats;
                 rawDiff := None;
                 gzipDiff := None;
                 increase := None |}.

(** What the loop records for a changed page [d]. *)
Definition changedEntry (opts : options) (currentBundle baseBundle : report)
    (d : pageDiff) : Prop :=
  In (page d) (keys currentBundle)
  /\ exists currentStats,
       get currentBundle (page d) = Some currentStats
       /\ read baseBundle (page d) <> Undefined
       /\ differs (gzip currentStats) (gzipOf (read baseBundle (page d))) = true
       /\ aboveThresholdDiff opts
            (minus (gzip currentStats) (gzipOf (read baseBundle (page d))))
          = true
       /\ d = {| page := page d;
                 d_raw := raw currentStats;
                 d_gzip := gzip currentStats;
                 rawDiff :=
                   Some (minus (raw currentStats)
                           (rawOf (read baseBundle (page d))));
                 gzipDiff :=
                   Some (minus (gzip currentStats)
                           (gzipOf (read baseBundle (page d))));
                 increase :=
                   Some (signTruthy
                           (minus (gzip currentStats)
                              (gzipOf (read baseBundle (page d))))) |}.

(** The pages of the rows of a table. *)
Definition pagesOf (data : list pageDiff) : list string := map page data.

(** [hasNoChanges], from the loaded reports and their global bundles. *)
Definition unchanged (opts : options) (currentBundle baseBundle : report)
    (globalBundleCurrent globalBundleBase : stats) : bool :=
  hasNoChanges
    (changedPages opts (del "__global" currentBundle) (del "__global" baseBundle))
    (newPages opts (del "__global" currentBundle) (del "__global" baseBundle))
    (globalBundleChanges opts globalBundleCurrent globalBundleBase).

(** The text of a run without changes. *)
Definition noChanges (opts : options) : string :=
  header opts ++ sentinel ++ marker opts.

(** The prior first load as the specification words it: the gzip size of the
    base global bundle plus the gzip size of the page on the base branch, as a
    percentage of the budget rounded to two decimals. *)
Definition specPreviousBudgetPercentage (opts : options)
    (globalBundleBase baseStats : stats) : JS.value :=
  percentOfBudget opts (gzip globalBundleBase + gzip baseStats).

(** The delta as the specification words it: the current budget percentage
    minus the prior one. *)
Definition specBudgetChange (current prior : JS.value) : JS.value :=
  JS.VFixed (JS.toFixed2 (JS.ToNumber current - JS.ToNumber prior)%float).

(** The budget change of the row of a changed page as the script computes
    it: the percentage of the current global bundle plus the page size plus
    its delta, minus the percentage of the first load, each rounded to two
    decimals, and the difference rounded again. *)
Definition scriptBudgetChange (opts : options) (globalBundleCurrent : stats)
    (d : pageDiff) (gzd : Z) : JS.value :=
  JS.VFixed
    (JS.toFixed2
       (JS.ToNumber (percentOfBudget opts
                       (gzip globalBundleCurrent + d_gzip d + gzd))
        - JS.ToNumber (percentOfBudget opts
                         (d_gzip d + gzip globalBundleCurrent)))%float).

(** ** The tests of the loop *)

(** The page is reported as a new page: [baseBundle[page]] is
    [undefined]. *)
Definition isNew (baseBundle : report) (p : string) : bool :=
  match read baseBundle p with
  | Undefined => true
  | _ => false
  end.

(** The page is reported as a changed page: [baseBundle[page]] is not
    [undefined], the gzip sizes differ and the difference passes the
    threshold. *)
Definition isChanged (opts : options) (currentBundle baseBundle : report)
    (p : string) : bool :=
  match get currentBundle p with
  | Some currentStats =>
      match read baseBundle p with
      | Undefined => false
      | baseStats =>
          differs (gzip currentStats) (gzipOf baseStats)
          && aboveThresholdDiff opts
               (minus (gzip currentStats) (gzipOf baseStats))
      end
  | None => false
  end.

(** The options with another [skipCommentIfEmpty]. *)
Definition withSkip (opts : options) (skip : bool) : options := {|
  budget := budget opts;
  budgetPercentIncreaseRed := budgetPercentIncreaseRed opts;
  showDetails := showDetails opts;
  buildOutputDirectory := buildOutputDirectory opts;
  name := name opts;
  skipCommentIfEmpty := skip;
  minimumChangeThreshold := minimumChangeThreshold opts
|}.

(** ** Sample inputs *)

Module Sample.

(** Stand-ins for the libraries: a size is written in bytes, a count and a
    number by fixed words. *)
Definition host : Host := {|
  originalFilesize := fun bytes spacer =>
    (if bytes <? 0 then "-" else EmptyString)
      ++ Str.ofN (Z.abs bytes) ++ spacer ++ "B";
  toWords := fun n => "n" ++ Str.ofN (Z.of_nat n);
  numberToString := fun _ => "number"
|}.

Definition configured (b : option Z) (skip : bool) (t : option Z) : options := {|
  budget := b;
  budgetPercentIncreaseRed := JS.ofZ 20;
  showDetails := Some false;
  buildOutputDirectory := ".next";
  name := "app";
  skipCommentIfEmpty := skip;
  minimumChangeThreshold := t
|}.

Definition plain : options := configured None false None.
Definition withBudget (b : Z) : options := configured (Some b) false None.
Definition skipping : options := configured None true None.
Definition withThreshold (t : Z) : options := configured None false (Some t).

Definition st (r g : Z) : stats := {| raw := r; gzip := g |}.

(** The text logged for a page that grew from 40 to 50 bytes, with a global
    bundle of 5 bytes, no budget and no details. *)
Definition changedLog : string :=
  "## 📦 Next.js Bundle Analysis for app

This analysis was generated by the [Next.js Bundle Analysis action](https://github.com/hashicorp/nextjs-bundle-analysis). 🤖

### N1 Page Changed Size
  
The following page changed size from the code in this PR compared to its base branch:

Page | Size (compressed) | First Load |
|---|---|---|
| `/a` | `50" ++ nbsp ++ "B` _(🔴 +10" ++ nbsp ++ "B)_ | 55" ++ nbsp ++ "B |
<!-- __NEXTJS_BUNDLE_app -->".

(** The entry of a page that grew from 80 to 100 bytes, and from 40 to 50
    bytes compressed. *)
Definition grown : pageDiff := {|
  page := "/a";
  d_raw := 100;
  d_gzip := 50;
  rawDiff := Some (Diff 20);
  gzipDiff := Some (Diff 10);
  increase := Some true
|}.

(** The entry of a new page of 3 bytes, 1 byte compressed. *)
Definition added : pageDiff := {|
  page := "/n";
  d_raw := 3;
  d_gzip := 1;
  rawDiff := None;
  gzipDiff := None;
  increase := None
|}.

(** The entry of a global bundle that shrank from 8 to 5 bytes compressed. *)
Definition shrunkGlobal : pageDiff := {|
  page := "global";
  d_raw := 10;
  d_gzip := 5;
  rawDiff := None;
  gzipDiff := Some (Diff (-3));
  increase := Some false
|}.

(** The entry of a page that grew from 1000 to 1008 bytes, and from 500 to
    504 bytes compressed. *)
Definition slight : pageDiff := {|
  page := "/a";
  d_raw := 1008;
  d_gzip := 504;
  rawDiff := Some (Diff 8);
  gzipDiff := Some (Diff 4);
  increase := Some true
|}.

(** A parser for the sample worlds: the empty text is no JSON, any other
    text stands for a report with a global bundle only. *)
Definition node : Node := {|
  cwd := "/repo";
  parseJSON := fun content =>
    if String.eqb content EmptyString then None
    else Some [("__global", st 10 5)]
|}.

(** A world without the base report. *)
Definition noBase : world := {|
  files := [(["/repo"; ".next"; "analyze/__bundle_analysis.json"], "{}")];
  consoleLines := []
|}.

End Sample.

(** * Properties *)

(** ** The order of binary64 numbers *)

Module FloatOrder.

Lemma lex_Lt e1 m1 e2 m2 :
  lex e1 m1 e2 m2 = Lt <-> e1 < e2 \/ (e1 = e2 /\ (m1 < m2)%positive).
Proof.
  unfold lex. change (Pos.compare_cont Eq m1 m2) with (Pos.compare m1 m2).
  destruct (Z.compare_spec e1 e2); destruct (Pos.compare_spec m1 m2);
    split; intros; try discriminate; try reflexivity; try lia.
Qed.

Lemma lex_Eq e1 m1 e2 m2 :
  lex e1 m1 e2 m2 = Eq <-> e1 = e2 /\ m1 = m2.
Proof.
  unfold lex. change (Pos.compare_cont Eq m1 m2) with (Pos.compare m1 m2).
  destruct (Z.compare_spec e1 e2); destruct (Pos.compare_spec m1 m2);
    split; intros; try discriminate; try reflexivity; try lia.
Qed.

Lemma lex_Gt e1 m1 e2 m2 :
  lex e1 m1 e2 m2 = Gt <-> e2 < e1 \/ (e1 = e2 /\ (m2 < m1)%positive).
Proof.
  unfold lex. change (Pos.compare_cont Eq m1 m2) with (Pos.compare m1 m2).
  destruct (Z.compare_spec e1 e2); destruct (Pos.compare_spec m1 m2);
    split; intros; try discriminate; try reflexivity; try lia.
Qed.

Lemma SFcompare_finite s1 m1 e1 s2 m2 e2 :
  SFcompare (S754_finite s1 m1 e1) (S754_finite s2 m2 e2) =
  Some match s1, s2 with
       | true, false => Lt
       | false, true => Gt
       | false, false => lex e1 m1 e2 m2
       | true, true => lex e2 m2 e1 m1
       end.
Proof.
  unfold lex; simpl. destruct s1, s2; try reflexivity.
  rewrite (Z.compare_antisym e1 e2).
  change (Pos.compare_cont Eq m2 m1) with (Pos.compare m2 m1).
  change (Pos.compare_cont Eq m1 m2) with (Pos.compare m1 m2).
  rewrite (Pos.compare_antisym m1 m2).
  destruct (e1 ?= e2); simpl; reflexivity.
Qed.

Ltac lex_facts :=
  repeat match goal with
  | H : lex _ _ _ _ = Lt |- _ => apply lex_Lt in H
  | H : lex _ _ _ _ = Eq |- _ => apply lex_Eq in H
  | H : lex _ _ _ _ = Gt |- _ => apply lex_Gt in H
  end.

Ltac lex_split :=
  repeat match goal with
  | |- context [lex ?a ?b ?c ?d] => destruct (lex a b c d) eqn:?
  end.

(** Settles a goal on [SFleb], [SFltb] and [SFeqb] whose numbers have been
    split into their four kinds. *)
Ltac sf_solve :=
  unfold SFleb, SFltb, SFeqb;
  rewrite ?SFcompare_finite;
  repeat match goal with s : bool |- _ => destruct s end;
  try (simpl; congruence);
  lex_split; simpl; try congruence; intros; lex_facts; try lia.

Lemma SFleb_ltb_false x y : SFleb x y = true -> SFltb y x = false.
Proof.
  destruct x as [sx|sx| |sx mx ex], y as [sy|sy| |sy my ey]; sf_solve.
Qed.

Lemma SFleb_total x y :
  SFisNaN x = false -> SFisNaN y = false ->
  SFleb x y = false -> SFltb y x = true.
Proof.
  destruct x as [sx|sx| |sx mx ex], y as [sy|sy| |sy my ey]; sf_solve.
Qed.

Lemma SFleb_trans x y z :
  SFleb x y = true -> SFleb y z = true -> SFleb x z = true.
Proof.
  destruct x as [sx|sx| |sx mx ex], y as [sy|sy| |sy my ey],
    z as [sz|sz| |sz mz ez]; sf_solve.
Qed.

Lemma SFltb_abs x c :
  SFltb x c && SFltb (SFopp c) x = SFltb (SFabs x) c.
Proof.
  destruct x as [sx|sx| |sx mx ex], c as [sc|sc| |sc mc ec];
    simpl SFopp; simpl SFabs; sf_solve.
Qed.

Lemma SFltb_notNaN x y :
  SFltb x y = true -> SFisNaN x = false /\ SFisNaN y = false.
Proof.
  destruct x as [sx|sx| |sx mx ex], y as [sy|sy| |sy my ey];
    simpl; auto; discriminate.
Qed.

Lemma SFeqb_refl x : SFeqb x x = negb (SFisNaN x).
Proof.
  destruct x as [sx|sx| |sx mx ex]; sf_solve.
Qed.

(** The same facts on the numbers of the kernel. *)

Lemma is_nan_spec (x : float) : is_nan x = SFisNaN (Prim2SF x).
Proof.
  unfold is_nan. rewrite eqb_spec, SFeqb_refl. apply negb_involutive.
Qed.

Lemma float_leb_ltb_false (x y : float) :
  (x <=? y)%float = true -> (y <? x)%float = false.
Proof. rewrite leb_spec, ltb_spec. apply SFleb_ltb_false. Qed.

Lemma float_leb_total (x y : float) :
  is_nan x = false -> is_nan y = false ->
  (x <=? y)%float = false -> (y <? x)%float = true.
Proof. rewrite !is_nan_spec, leb_spec, ltb_spec. apply SFleb_total. Qed.

Lemma float_leb_trans (x y z : float) :
  (x <=? y)%float = true -> (y <=? z)%float = true -> (x <=? z)%float = true.
Proof. rewrite !leb_spec. apply SFleb_trans. Qed.

Lemma float_ltb_abs (x c : float) :
  ((x <? c) && (- c <? x))%float = (abs x <? c)%float.
Proof. rewrite !ltb_spec, opp_spec, abs_spec. apply SFltb_abs. Qed.

Lemma float_ltb_notNaN (x y : float) :
  (x <? y)%float = true -> is_nan x = false /\ is_nan y = false.
Proof. rewrite !is_nan_spec, ltb_spec. apply SFltb_notNaN. Qed.

End FloatOrder.

(** ** Reports *)

Section Reports.

Lemma get_cons (k : string) (v : stats) (r : report) (p : string) :
  get ((k, v) :: r) p = if String.eqb k p then Some v else get r p.
Proof. reflexivity. Qed.

Lemma get_del_ne (k p : string) (r : report) :
  p <> k -> get (del k r) p = get r p.
Proof.
  intros Hne. induction r as [|[k' v] r IH]; simpl; [reflexivity|].
  destruct (String.eqb_spec k' k) as [->|Hk]; simpl.
  - destruct (String.eqb_spec k p); [congruence|]. exact IH.
  - destruct (String.eqb k' p); [reflexivity|exact IH].
Qed.

Lemma get_del_eq (k : string) (r : report) : get (del k r) k = None.
Proof.
  induction r as [|[k' v] r IH]; simpl; [reflexivity|].
  destruct (String.eqb_spec k' k) as [->|Hk]; simpl; [exact IH|].
  destruct (String.eqb_spec k' k); [congruence|exact IH].
Qed.

Lemma keys_del (k p : string) (r : report) :
  In p (keys (del k r)) <-> p <> k /\ In p (keys r).
Proof.
  unfold keys, del. rewrite !in_map_iff. split.
  - intros [[k' v] [Hp Hin]]. apply filter_In in Hin. destruct Hin as [Hin Hk].
    simpl in *. subst k'. split.
    + destruct (String.eqb_spec p k); [discriminate|assumption].
    + exists (p, v). auto.
  - intros [Hne [[k' v] [Hp Hin]]]. simpl in Hp. subst k'.
    exists (p, v). split; [reflexivity|]. apply filter_In. split; [assumption|].
    simpl. destruct (String.eqb_spec p k); [contradiction|reflexivity].
Qed.

Lemma get_key (r : report) (p : string) :
  In p (keys r) -> exists s, get r p = Some s.
Proof.
  induction r as [|[k v] r IH]; simpl; [contradiction|].
  intros [->|Hin].
  - rewrite String.eqb_refl. eauto.
  - destruct (String.eqb k p); eauto.
Qed.

Lemma read_del_ne (k p : string) (r : report) :
  p <> k -> read (del k r) p = read r p.
Proof.
  intros Hne. unfold read. rewrite get_del_ne by assumption. reflexivity.
Qed.

Lemma read_Own (r : report) (p : string) (s : stats) :
  get r p = Some s -> read r p = Own s.
Proof. intros H. unfold read. rewrite H. reflexivity. Qed.

Lemma read_Own_inv (r : report) (p : string) (s : stats) :
  read r p = Own s -> get r p = Some s.
Proof.
  unfold read. destruct (get r p) as [s'|].
  - intros H. injection H as ->. reflexivity.
  - destruct (existsb (String.eqb p) objectPrototype); discriminate.
Qed.

(** A member that is neither own nor [undefined] has an inherited name. *)
Lemma read_Inherited (r : report) (p : string) :
  read r p = Inherited <-> get r p = None /\ In p objectPrototype.
Proof.
  unfold read. destruct (get r p) as [s|].
  - split; [discriminate|]. intros [H _]. discriminate.
  - destruct (existsb (String.eqb p) objectPrototype) eqn:E.
    + split; [|reflexivity]. intros _. split; [reflexivity|].
      apply existsb_exists in E. destruct E as (x & Hx & Ex).
      apply String.eqb_eq in Ex. subst x. exact Hx.
    + split; [discriminate|]. intros [_ H].
      assert (existsb (String.eqb p) objectPrototype = true).
      { apply existsb_exists. exists p. split; [exact H|].
        apply String.eqb_refl. }
      congruence.
Qed.

End Reports.

(** ** The classification of the pages *)

Section Classification.

Variable opts : options.
Variables currentBundle baseBundle : report.

Lemma analyse_entries (acc : list pageDiff * list pageDiff) (p : string) :
  In p (keys currentBundle) ->
  Forall (changedEntry opts currentBundle baseBundle) (fst acc) ->
  Forall (newEntry currentBundle baseBundle) (snd acc) ->
  Forall (changedEntry opts currentBundle baseBundle)
    (fst (analyse opts currentBundle baseBundle acc p))
  /\ Forall (newEntry currentBundle baseBundle)
       (snd (analyse opts currentBundle baseBundle acc p)).
Proof.
  intros Hkey Hc Hn. destruct acc as [changed new]. unfold analyse. simpl in *.
  destruct (get currentBundle p) as [cs|] eqn:Hcs; [|auto].
  assert (Hchanged : forall m, read baseBundle p = m -> m <> Undefined ->
    Forall (changedEntry opts currentBundle baseBundle)
      (fst (if differs (gzip cs) (gzipOf m)
            then if aboveThresholdDiff opts (minus (gzip cs) (gzipOf m))
                 then ((changed ++ [ {| page := p;
                                        d_raw := raw cs;
                                        d_gzip := gzip cs;
                                        rawDiff := Some (minus (raw cs) (rawOf m));
                                        gzipDiff :=
                                          Some (minus (gzip cs) (gzipOf m));
                                        increase :=
                                          Some (signTruthy
                                                  (minus (gzip cs) (gzipOf m)))
                                     |} ])%list, new)
                 else (changed, new)
            else (changed, new)))
    /\ Forall (newEntry currentBundle baseBundle)
         (snd (if differs (gzip cs) (gzipOf m)
               then if aboveThresholdDiff opts (minus (gzip cs) (gzipOf m))
                    then ((changed ++ [ {| page := p;
                                           d_raw := raw cs;
                                           d_gzip := gzip cs;
                                           rawDiff :=
                                             Some (minus (raw cs) (rawOf m));
                                           gzipDiff :=
                                             Some (minus (gzip cs) (gzipOf m));
                                           increase :=
                                             Some (signTruthy
                                                     (minus (gzip cs)
                                                        (gzipOf m)))
                                        |} ])%list, new)
                    else (changed, new)
               else (changed, new)))).
  { intros m Hm Hdef.
    destruct (differs (gzip cs) (gzipOf m)) eqn:Hdiff; [|auto].
    destruct (aboveThresholdDiff opts (minus (gzip cs) (gzipOf m))) eqn:Hthr;
      [|auto].
    simpl. split; [|assumption].
    apply Forall_app. split; [assumption|].
    constructor; [|constructor].
    split; [exact Hkey|]. exists cs. simpl. rewrite Hm. auto 6. }
  destruct (read baseBundle p) as [bs| |] eqn:Hbs.
  - apply (Hchanged (Own bs) eq_refl). discriminate.
  - apply (Hchanged Inherited eq_refl). discriminate.
  - simpl. split; [assumption|].
    apply Forall_app. split; [assumption|].
    constructor; [|constructor].
    split; [exact Hkey|]. exists cs. simpl. auto.
Qed.

Lemma fold_analyse_entries (ks : list string) :
  forall acc,
  (forall p, In p ks -> In p (keys currentBundle)) ->
  Forall (changedEntry opts currentBundle baseBundle) (fst acc) ->
  Forall (newEntry currentBundle baseBundle) (snd acc) ->
  Forall (changedEntry opts currentBundle baseBundle)
    (fst (fold_left (analyse opts currentBundle baseBundle) ks acc))
  /\ Forall (newEntry currentBundle baseBundle)
       (snd (fold_left (analyse opts currentBundle baseBundle) ks acc)).
Proof.
  induction ks as [|k ks IH]; intros acc Hks Hc Hn; simpl; [auto|].
  destruct (analyse_entries acc k (Hks k (or_introl eq_refl)) Hc Hn) as [Hc' Hn'].
  apply IH; auto. intros p Hp. apply Hks. right. exact Hp.
Qed.

Lemma changedPages_entries :
  Forall (changedEntry opts currentBundle baseBundle)
    (changedPages opts currentBundle baseBundle).
Proof.
  unfold changedPages, analysePages.
  apply fold_analyse_entries; simpl; auto.
Qed.

Lemma newPages_entries :
  Forall (newEntry currentBundle baseBundle)
    (newPages opts currentBundle baseBundle).
Proof.
  unfold newPages, analysePages.
  apply fold_analyse_entries; simpl; auto.
Qed.

Lemma changedPages_In (d : pageDiff) :
  In d (changedPages opts currentBundle baseBundle) ->
  changedEntry opts currentBundle baseBundle d.
Proof.
  intros H. exact (proj1 (Forall_forall _ _) changedPages_entries d H).
Qed.

Lemma newPages_In (d : pageDiff) :
  In d (newPages opts currentBundle baseBundle) ->
  newEntry currentBundle baseBundle d.
Proof.
  intros H. exact (proj1 (Forall_forall _ _) newPages_entries d H).
Qed.

End Classification.

(** ** The status indicator *)

Section StatusIndicator.

Variable opts : options.
Import JS FloatOrder.

Lemma indicators_distinct :
  red <> yellow /\ red <> EmptyString /\ red <> green /\
  yellow <> EmptyString /\ yellow <> green /\ green <> EmptyString.
Proof. repeat split; discriminate. Qed.

(** C5.  With a positive red threshold, and for a percent delta that is a
    number (not NaN), the indicator is red exactly when the delta is at least
    the threshold, yellow exactly when the delta is above zero and below the
    threshold, and absent or green exactly when the delta is at most zero. *)
Theorem status_indicator_by_delta (percentageChange : value) :
  (0 <? BUDGET_PERCENT_INCREASE_RED opts)%float = true ->
  is_nan (ToNumber percentageChange) = false ->
  (renderStatusIndicator opts percentageChange = red
     <-> (BUDGET_PERCENT_INCREASE_RED opts <=? ToNumber percentageChange)%float
         = true)
  /\ (renderStatusIndicator opts percentageChange = yellow
     <-> ((0 <? ToNumber percentageChange)
          && (ToNumber percentageChange <? BUDGET_PERCENT_INCREASE_RED opts))%float
         = true)
  /\ ((renderStatusIndicator opts percentageChange = EmptyString
       \/ renderStatusIndicator opts percentageChange = green)
     <-> (ToNumber percentageChange <=? 0)%float = true).
Proof.
  intros Hpos Hnum.
  set (x := ToNumber percentageChange) in *.
  set (threshold := BUDGET_PERCENT_INCREASE_RED opts) in *.
  destruct (float_ltb_notNaN _ _ Hpos) as [_ Hthr].
  assert (Hzero : is_nan 0%float = false) by reflexivity.
  unfold renderStatusIndicator. fold x. fold threshold.
  destruct indicators_distinct as (D1 & D2 & D3 & D4 & D5 & D6).
  destruct ((0 <? x) && (x <? threshold))%float eqn:Hy.
  - apply andb_true_iff in Hy. destruct Hy as [Hy1 Hy2].
    repeat split; intros; try congruence.
    + pose proof (float_leb_ltb_false _ _ H). congruence.
    + destruct H; congruence.
    + pose proof (float_leb_ltb_false _ _ H). congruence.
  - destruct (threshold <=? x)%float eqn:Hr.
    + repeat split; intros; try congruence.
      * destruct H; congruence.
      * pose proof (float_leb_trans _ _ _ Hr H) as Hle.
        pose proof (float_leb_ltb_false _ _ Hle). congruence.
    + pose proof (float_leb_total _ _ Hthr Hnum Hr) as Hlt.
      rewrite Hlt, andb_true_r in Hy.
      assert (Hle : (x <=? 0)%float = true).
      { destruct (x <=? 0)%float eqn:E; [reflexivity|].
        pose proof (float_leb_total _ _ Hnum Hzero E). congruence. }
      repeat split; intros; try congruence.
      * destruct ((x <? cent) && (- cent <? x))%float; congruence.
      * destruct ((x <? cent) && (- cent <? x))%float; congruence.
      * destruct ((x <? cent) && (- cent <? x))%float; auto.
Qed.

(** The renderer is also given what is not a number: then the indicator is
    green. *)
Remark status_indicator_of_nan :
  renderStatusIndicator opts (VNum nan) = green.
Proof.
  unfold renderStatusIndicator. simpl ToNumber.
  assert (H : forall y, (y <? nan)%float = false /\ (nan <? y)%float = false
                        /\ (y <=? nan)%float = false).
  { intros y. rewrite !ltb_spec, leb_spec.
    change (Prim2SF nan) with S754_nan.
    unfold SFltb, SFleb. simpl. destruct (Prim2SF y); auto. }
  destruct (H 0%float) as (-> & _ & _).
  destruct (H (BUDGET_PERCENT_INCREASE_RED opts)) as (_ & _ & ->).
  destruct (H cent) as (_ & -> & _). reflexivity.
Qed.

End StatusIndicator.

Lemma status_indicator_by_delta_witness :
  renderStatusIndicator Sample.plain (JS.VNum (JS.ofZ 25)) = red
  <-> (BUDGET_PERCENT_INCREASE_RED Sample.plain <=? JS.ofZ 25)%float = true.
Proof.
  exact (proj1 (status_indicator_by_delta Sample.plain (JS.VNum (JS.ofZ 25))
                  eq_refl eq_refl)).
Defined.

(** ** The global bundle *)

Section GlobalBundle.

Variable opts : options.

Lemma aboveThreshold_spec (diff : Z) :
  aboveThreshold opts diff = true
  <-> minimumChangeThreshold opts = None
      \/ exists t, minimumChangeThreshold opts = Some t /\ Z.abs diff > t.
Proof.
  unfold aboveThreshold. destruct (minimumChangeThreshold opts) as [t|].
  - split.
    + intros H. right. exists t. split; [reflexivity|]. lia.
    + intros [H|[t' [H Ht]]]; [discriminate|]. injection H as <-. lia.
  - split; auto.
Qed.

(** C4.  The change of the global bundle is flagged exactly when the gzip
    delta is not zero and either no minimum change threshold is configured or
    the absolute delta is greater than the threshold; so, with a threshold
    configured, an absolute delta of at most the threshold is not flagged. *)
Theorem global_change_flagged (globalBundleCurrent globalBundleBase : stats) :
  (globalBundleChanges opts globalBundleCurrent globalBundleBase <> None
   <-> gzip globalBundleCurrent - gzip globalBundleBase <> 0
       /\ (minimumChangeThreshold opts = None
           \/ exists t, minimumChangeThreshold opts = Some t
                        /\ Z.abs (gzip globalBundleCurrent
                                  - gzip globalBundleBase) > t))
  /\ (forall t, minimumChangeThreshold opts = Some t ->
        Z.abs (gzip globalBundleCurrent - gzip globalBundleBase) <= t ->
        globalBundleChanges opts globalBundleCurrent globalBundleBase = None).
Proof.
  unfold globalBundleChanges.
  set (delta := gzip globalBundleCurrent - gzip globalBundleBase).
  split.
  - destruct (Z.eqb_spec delta 0) as [H0|H0]; simpl.
    + split; [congruence|]. intros [H _]. contradiction.
    + destruct (aboveThreshold opts delta) eqn:Habove.
      * split; [|discriminate]. intros _. split; [assumption|].
        apply aboveThreshold_spec. exact Habove.
      * split; [congruence|]. intros [_ H].
        apply aboveThreshold_spec in H. congruence.
  - intros t Ht Hle.
    destruct (aboveThreshold opts delta) eqn:Habove.
    + apply aboveThreshold_spec in Habove.
      destruct Habove as [H|[t' [H Hgt]]]; [congruence|].
      assert (t' = t) by congruence. subst t'. lia.
    + rewrite andb_false_r. reflexivity.
Qed.

Lemma globalBundleChanges_entry (globalBundleCurrent globalBundleBase : stats)
    (g : pageDiff) :
  globalBundleChanges opts globalBundleCurrent globalBundleBase = Some g ->
  g = {| page := "global";
         d_raw := raw globalBundleCurrent;
         d_gzip := gzip globalBundleCurrent;
         rawDiff := None;
         gzipDiff :=
           Some (Diff (gzip globalBundleCurrent - gzip globalBundleBase));
         increase :=
           Some (Z.sgn (gzip globalBundleCurrent - gzip globalBundleBase) >? 0) |}.
Proof.
  unfold globalBundleChanges.
  destruct (negb _ && _); [|discriminate]. intros H. injection H as <-.
  reflexivity.
Qed.

Lemma sgn_positive (z : Z) : (Z.sgn z >? 0) = (0 <? z).
Proof.
  rewrite Z.gtb_ltb.
  destruct (Z.sgn_spec z) as [[H ->]|[[H ->]|[H ->]]];
    destruct (Z.ltb_spec 0 z); try reflexivity; lia.
Qed.

(** What the loop files as a changed page: a page that the base report
    holds with another gzip size, with a delta that is not zero and
    [increase] true; or, without a threshold, a page that the base report
    does not hold and whose name Object.prototype defines, with the deltas
    NaN and [increase] false. *)
Lemma changed_entry_kinds (currentBundle baseBundle : report) (d : pageDiff) :
  In d (changedPages opts currentBundle baseBundle) ->
  (exists currentStats baseStats,
     get currentBundle (page d) = Some currentStats
     /\ get baseBundle (page d) = Some baseStats
     /\ gzip currentStats <> gzip baseStats
     /\ d = {| page := page d;
               d_raw := raw currentStats;
               d_gzip := gzip currentStats;
               rawDiff := Some (Diff (raw currentStats - raw baseStats));
               gzipDiff := Some (Diff (gzip currentStats - gzip baseStats));
               increase := Some true |})
  \/ (exists currentStats,
        get currentBundle (page d) = Some currentStats
        /\ get baseBundle (page d) = None
        /\ In (page d) objectPrototype
        /\ minimumChangeThreshold opts = None
        /\ d = {| page := page d;
                  d_raw := raw currentStats;
                  d_gzip := gzip currentStats;
                  rawDiff := Some NaN;
                  gzipDiff := Some NaN;
                  increase := Some false |}).
Proof.
  intros Hd. apply changedPages_In in Hd.
  destruct Hd as (_ & cs & Hcs & Hdef & Hdiff & Hthr & Hd).
  destruct (read baseBundle (page d)) as [bs| |] eqn:Hm.
  - left. exists cs, bs. apply read_Own_inv in Hm.
    simpl in Hdiff, Hd. apply negb_true_iff, Z.eqb_neq in Hdiff.
    repeat split; try assumption.
    rewrite Hd at 1. simpl. f_equal. f_equal.
    apply negb_true_iff. apply Z.eqb_neq. rewrite Z.sgn_null_iff. lia.
  - right. exists cs. apply read_Inherited in Hm. destruct Hm as [Hnone Hin].
    simpl in Hthr, Hd.
    destruct (minimumChangeThreshold opts) as [t|] eqn:Ht; [discriminate|].
    repeat split; assumption.
  - contradiction.
Qed.

(** C10.  A page named [constructor] that only the current report holds is
    filed as a changed page, with the deltas NaN and [increase] false, and
    not as a new page.  Apart from such names, every changed page has a
    gzip delta that is not zero and [increase] true, whatever the sign of
    the delta.  The change of the global bundle is recorded exactly when it
    is flagged, with [increase] true exactly when the global gzip delta is
    positive. *)
Theorem increase_of_changes :
  changedPages Sample.plain [("constructor", Sample.st 100 50)] []
  = [ {| page := "constructor"; d_raw := 100; d_gzip := 50;
         rawDiff := Some NaN; gzipDiff := Some NaN;
         increase := Some false |} ]
  /\ newPages Sample.plain [("constructor", Sample.st 100 50)] [] = []
  /\ (forall currentBundle baseBundle d,
        In d (changedPages opts currentBundle baseBundle) ->
        (exists gzd, gzipDiff d = Some (Diff gzd) /\ gzd <> 0
                     /\ increase d = Some true)
        \/ (gzipDiff d = Some NaN /\ increase d = Some false
            /\ get baseBundle (page d) = None
            /\ In (page d) objectPrototype))
  /\ (forall globalBundleCurrent globalBundleBase,
        globalBundleChanges opts globalBundleCurrent globalBundleBase
        = if negb (gzip globalBundleCurrent - gzip globalBundleBase =? 0)
             && aboveThreshold opts
                  (gzip globalBundleCurrent - gzip globalBundleBase)
          then Some {| page := "global";
                       d_raw := raw globalBundleCurrent;
                       d_gzip := gzip globalBundleCurrent;
                       rawDiff := None;
                       gzipDiff :=
                         Some (Diff (gzip globalBundleCurrent
                                     - gzip globalBundleBase));
                       increase :=
                         Some (0 <? gzip globalBundleCurrent
                                    - gzip globalBundleBase) |}
          else None).
Proof.
  split; [reflexivity|]. split; [reflexivity|]. split.
  - intros c b d Hd. apply changed_entry_kinds in Hd.
    destruct Hd as [(cs & bs & _ & _ & Hne & ->)|(cs & _ & Hb & Hin & _ & ->)];
      simpl.
    + left. exists (gzip cs - gzip bs). repeat split. lia.
    + right. auto.
  - intros gC gB. unfold globalBundleChanges.
    rewrite sgn_positive. reflexivity.
Qed.

End GlobalBundle.

(** A page that shrank is recorded with [increase] true. *)
Example shrunk_page_increase :
  changedPages Sample.plain
    [("/a", Sample.st 80 40)] [("/a", Sample.st 100 50)]
  = [ {| page := "/a"; d_raw := 80; d_gzip := 40;
         rawDiff := Some (Diff (-20)); gzipDiff := Some (Diff (-10));
         increase := Some true |} ].
Proof. reflexivity. Qed.

Lemma global_change_flagged_witness :
  globalBundleChanges (Sample.withThreshold 10)
    (Sample.st 10 15) (Sample.st 10 5) = None.
Proof.
  apply (proj2 (global_change_flagged (Sample.withThreshold 10)
                  (Sample.st 10 15) (Sample.st 10 5))
           10 eq_refl).
  simpl. lia.
Defined.

(** ** Pages that are not reported *)

Section Unreported.

Context {host : Host}.
Variable opts : options.

Lemma pagesOf_In (p : string) (data : list pageDiff) :
  In p (pagesOf data) -> exists d, In d data /\ page d = p.
Proof.
  unfold pagesOf. rewrite in_map_iff. intros [d [Hp Hd]]. eauto.
Qed.

Lemma changed_page_key (currentBundle baseBundle : report) (p : string) :
  In p (pagesOf (changedPages opts currentBundle baseBundle)) ->
  In p (keys currentBundle)
  /\ exists cs, get currentBundle p = Some cs
                /\ read baseBundle p <> Undefined
                /\ differs (gzip cs) (gzipOf (read baseBundle p)) = true.
Proof.
  intros H. apply pagesOf_In in H. destruct H as (d & Hd & <-).
  apply changedPages_In in Hd.
  destruct Hd as (Hk & cs & Hc & Hdef & Hdiff & _). eauto 6.
Qed.

Lemma new_page_key (currentBundle baseBundle : report) (p : string) :
  In p (pagesOf (newPages opts currentBundle baseBundle)) ->
  In p (keys currentBundle) /\ read baseBundle p = Undefined.
Proof.
  intros H. apply pagesOf_In in H. destruct H as (d & Hd & <-).
  apply newPages_In in Hd.
  destruct Hd as (Hk & cs & Hc & Hb & _). auto.
Qed.

(** The loop reads the two reports at the page it is at only. *)
Lemma analyse_ext (currentBundle currentBundle' baseBundle baseBundle' : report)
    (acc : list pageDiff * list pageDiff) (p : string) :
  get currentBundle p = get currentBundle' p ->
  read baseBundle p = read baseBundle' p ->
  analyse opts currentBundle baseBundle acc p
  = analyse opts currentBundle' baseBundle' acc p.
Proof.
  intros Hc Hb. unfold analyse. rewrite Hc, Hb. reflexivity.
Qed.

Lemma fold_analyse_ext
    (currentBundle currentBundle' baseBundle baseBundle' : report)
    (ks : list string) :
  (forall p, In p ks ->
     get currentBundle p = get currentBundle' p
     /\ read baseBundle p = read baseBundle' p) ->
  forall acc,
    fold_left (analyse opts currentBundle baseBundle) ks acc
    = fold_left (analyse opts currentBundle' baseBundle') ks acc.
Proof.
  induction ks as [|k ks IH]; intros Hks acc; simpl; [reflexivity|].
  destruct (Hks k (or_introl eq_refl)) as [Hc Hb].
  rewrite (analyse_ext currentBundle currentBundle' baseBundle baseBundle'
             acc k Hc Hb).
  apply IH. intros p Hp. apply Hks. right. exact Hp.
Qed.

(** The classification reads the base report at the pages of the current
    report only. *)
Lemma analysePages_ext (currentBundle baseBundle baseBundle' : report) :
  (forall p, In p (keys currentBundle) ->
     read baseBundle p = read baseBundle' p) ->
  analysePages opts currentBundle baseBundle
  = analysePages opts currentBundle baseBundle'.
Proof.
  intros H. unfold analysePages. apply fold_analyse_ext.
  intros p Hp. split; [reflexivity|]. apply H. exact Hp.
Qed.

Lemma del_comm (k p : string) (r : report) :
  del k (del p r) = del p (del k r).
Proof.
  unfold del. induction r as [|[k' v] r IH]; simpl; [reflexivity|].
  destruct (negb (String.eqb k' p)) eqn:Ep;
    destruct (negb (String.eqb k' k)) eqn:Ek; simpl;
    rewrite ?Ep, ?Ek, IH; reflexivity.
Qed.





Lemma del_comm_read (k p q : string) (r : report) :
  q <> p -> read (del k (del p r)) q = read (del k r) q.
Proof.
  intros Hq. rewrite del_comm. apply read_del_ne. exact Hq.
Qed.

(** C7.  A page that the current report does not hold is neither among the
    changed pages nor among the new pages, and the run is the one of a base
    report without that page: the page of the base report contributes
    nothing. *)
Theorem removed_page_dropped (currentBundle baseBundle : report) (p : string) :
  get currentBundle p = None ->
  ~ In p (pagesOf (changedPages opts (del "__global" currentBundle)
                     (del "__global" baseBundle)))
  /\ ~ In p (pagesOf (newPages opts (del "__global" currentBundle)
                        (del "__global" baseBundle)))
  /\ compare opts (Some currentBundle) (Some baseBundle)
     = compare opts (Some currentBundle) (Some (del p baseBundle)).
Proof.
  intros Habsent.
  assert (Hnokey : forall q, In q (keys (del "__global" currentBundle)) -> q <> p).
  { intros q Hq ->. apply keys_del in Hq. destruct Hq as [_ Hq].
    apply get_key in Hq. destruct Hq as [s Hs]. congruence. }
  split; [|split].
  - intros H. apply changed_page_key in H. destruct H as (Hk & _).
    exact (Hnokey p Hk eq_refl).
  - intros H. apply new_page_key in H. destruct H as (Hk & _).
    exact (Hnokey p Hk eq_refl).
  - unfold compare.
    destruct (get currentBundle "__global") as [gC|] eqn:HgC; [|reflexivity].
    assert (Hp : "__global" <> p) by (intros <-; congruence).
    rewrite (get_del_ne p "__global" baseBundle Hp).
    destruct (get baseBundle "__global") as [gB|]; [|reflexivity].
    assert (Hpages :
      analysePages opts (del "__global" currentBundle)
        (del "__global" (del p baseBundle))
      = analysePages opts (del "__global" currentBundle)
          (del "__global" baseBundle)).
    { apply analysePages_ext. intros q Hq.
      apply del_comm_read. exact (Hnokey q Hq). }
    unfold changedPages, newPages. rewrite Hpages. reflexivity.
Qed.

End Unreported.


Lemma removed_page_dropped_witness :
  compare (host := Sample.host) Sample.plain
    (Some [("/a", Sample.st 100 50); ("__global", Sample.st 10 5)])
    (Some [("/a", Sample.st 80 40); ("/b", Sample.st 7 3);
           ("__global", Sample.st 10 5)])
  = compare (host := Sample.host) Sample.plain
      (Some [("/a", Sample.st 100 50); ("__global", Sample.st 10 5)])
      (Some (del "/b" [("/a", Sample.st 80 40); ("/b", Sample.st 7 3);
                       ("__global", Sample.st 10 5)])).
Proof.
  apply (removed_page_dropped (host := Sample.host) Sample.plain
           [("/a", Sample.st 100 50); ("__global", Sample.st 10 5)]
           [("/a", Sample.st 80 40); ("/b", Sample.st 7 3);
            ("__global", Sample.st 10 5)] "/b").
  reflexivity.
Defined.

(** ** Trimming *)

Section Trimming.

Lemma append_assoc (a b c : string) : (a ++ b) ++ c = a ++ b ++ c.
Proof.
  induction a as [|x a IH]; simpl; [reflexivity|]. rewrite IH. reflexivity.
Qed.

Lemma list_ascii_of_string_app (a b : string) :
  list_ascii_of_string (a ++ b)
  = (list_ascii_of_string a ++ list_ascii_of_string b)%list.
Proof.
  induction a as [|x a IH]; simpl; [reflexivity|]. rewrite IH. reflexivity.
Qed.

(** No white space character ends with a byte below 128 other than the
    one-byte ones. *)
Lemma ws2_ascii_last (a b : ascii) :
  (Str.byte b < 128)%nat -> Str.ws2 a b = false.
Proof.
  intros H. unfold Str.ws2.
  destruct (Nat.eqb_spec (Str.byte b) 160); [lia|]. apply andb_false_r.
Qed.

Lemma ws3_ascii_last (a b c : ascii) :
  (Str.byte c < 128)%nat -> Str.ws3 a b c = false.
Proof.
  intros H. unfold Str.ws3.
  destruct (Nat.eqb_spec (Str.byte c) 128); [lia|].
  destruct (Nat.eqb_spec (Str.byte c) 168); [lia|].
  destruct (Nat.eqb_spec (Str.byte c) 169); [lia|].
  destruct (Nat.eqb_spec (Str.byte c) 175); [lia|].
  destruct (Nat.eqb_spec (Str.byte c) 159); [lia|].
  destruct (Nat.eqb_spec (Str.byte c) 191); [lia|].
  destruct (Nat.leb_spec 128 (Str.byte c)); [lia|].
  rewrite !andb_false_r. reflexivity.
Qed.

Lemma ws2_ascii_first (a b : ascii) :
  (Str.byte a < 128)%nat -> Str.ws2 a b = false.
Proof.
  intros H. unfold Str.ws2.
  destruct (Nat.eqb_spec (Str.byte a) 194); [lia|]. reflexivity.
Qed.

Lemma ws3_ascii_first (a b c : ascii) :
  (Str.byte a < 128)%nat -> Str.ws3 a b c = false.
Proof.
  intros H. unfold Str.ws3.
  destruct (Nat.eqb_spec (Str.byte a) 225); [lia|].
  destruct (Nat.eqb_spec (Str.byte a) 226); [lia|].
  destruct (Nat.eqb_spec (Str.byte a) 227); [lia|].
  destruct (Nat.eqb_spec (Str.byte a) 239); [lia|].
  reflexivity.
Qed.

(** A sequence whose first byte is a visible ASCII character keeps its
    head, from either end. *)
Lemma dropWs_visible (back : bool) (a : ascii) (l : list ascii) :
  Str.ws1 a = false -> (Str.byte a < 128)%nat ->
  Str.dropWs back (a :: l) = a :: l.
Proof.
  intros Hws Ha. simpl. rewrite Hws.
  destruct l as [|b [|c l]]; [reflexivity| |].
  - destruct back; [rewrite ws2_ascii_last|rewrite ws2_ascii_first];
      auto.
  - destruct back.
    + rewrite ws2_ascii_last, ws3_ascii_last; auto.
    + rewrite ws2_ascii_first, ws3_ascii_first; auto.
Qed.

Lemma trim_framed (a z : ascii) (mid : string) :
  Str.ws1 a = false -> (Str.byte a < 128)%nat ->
  Str.ws1 z = false -> (Str.byte z < 128)%nat ->
  Str.trim (String a (mid ++ String z EmptyString))
  = String a (mid ++ String z EmptyString).
Proof.
  intros Ha1 Ha2 Hz1 Hz2. unfold Str.trim.
  set (l := list_ascii_of_string (String a (mid ++ String z EmptyString))).
  assert (Hl : l = a :: (list_ascii_of_string mid ++ [z])%list).
  { unfold l. simpl. rewrite list_ascii_of_string_app. reflexivity. }
  assert (Hrev : rev l = z :: (rev (list_ascii_of_string mid) ++ [a])%list).
  { rewrite Hl. simpl. rewrite rev_app_distr. reflexivity. }
  rewrite Hl at 1. rewrite dropWs_visible by assumption. rewrite <- Hl.
  rewrite Hrev. rewrite dropWs_visible by assumption. rewrite <- Hrev.
  rewrite rev_involutive. unfold l.
  apply string_of_list_ascii_of_string.
Qed.

(** The text between the header and the closing of the marker is kept by
    [trim]. *)
Lemma trim_output (opts : options) (body : string) :
  Str.trim (header opts ++ body ++ marker opts)
  = header opts ++ body ++ marker opts.
Proof.
  assert (Hh : exists h, header opts = String "#" h)
    by (unfold header; simpl; eauto).
  destruct Hh as [h ->]. unfold marker.
  replace (" -->") with (" --" ++ ">") by reflexivity.
  change (String "#" h ++ ?x) with (String "#" (h ++ x)).
  rewrite <- !append_assoc.
  apply trim_framed; try reflexivity; cbv; lia.
Qed.

End Trimming.

(** ** The output of a run *)

Section Output.

Context {host : Host}.
Variable opts : options.

(** A run that ends normally, by its parts. *)
Lemma compare_Done (current base : option report)
    (log dir file content : string) :
  compare opts current base = Done log dir file content ->
  exists currentBundle baseBundle globalBundleCurrent globalBundleBase body,
    current = Some currentBundle /\ base = Some baseBundle
    /\ get currentBundle "__global" = Some globalBundleCurrent
    /\ get baseBundle "__global" = Some globalBundleBase
    /\ log = (if unchanged opts currentBundle baseBundle globalBundleCurrent
                   globalBundleBase && skipCommentIfEmpty opts
              then EmptyString
              else header opts ++ body ++ marker opts)
    /\ content = Str.trim log.
Proof.
  unfold compare. intros H.
  destruct current as [cur|]; [|discriminate].
  destruct base as [b|]; [|discriminate].
  destruct (get cur "__global") as [gC|] eqn:HgC; [|discriminate].
  destruct (get b "__global") as [gB|] eqn:HgB; [|discriminate].
  cbv zeta in H.
  destruct (globalSection opts (globalBundleChanges opts gC gB)) as [sg|];
    [|discriminate].
  destruct (newSection opts
              (newPages opts (del "__global" cur) (del "__global" b)) gC)
    as [sn|]; [|discriminate].
  destruct (changedSection opts
              (changedPages opts (del "__global" cur) (del "__global" b)) gC gB)
    as [sc|]; [|discriminate].
  fold (unchanged opts cur b gC gB) in H.
  exists cur, b, gC, gB.
  exists (sg ++ sn ++ sc
          ++ (if unchanged opts cur b gC gB then sentinel else EmptyString)).
  match type of H with
  | Done ?l _ _ ?c = _ =>
      assert (Hl : l = log) by congruence;
      assert (Hc : c = content) by congruence
  end.
  clear H. subst content.
  assert (Hlog : log = (if unchanged opts cur b gC gB && skipCommentIfEmpty opts
                        then EmptyString
                        else header opts
                               ++ (sg ++ sn ++ sc
                                   ++ (if unchanged opts cur b gC gB
                                       then sentinel else EmptyString))
                               ++ marker opts)).
  { rewrite <- Hl. unfold SKIP_COMMENT_IF_EMPTY.
    destruct (unchanged opts cur b gC gB && skipCommentIfEmpty opts);
      [reflexivity|].
    rewrite !append_assoc. reflexivity. }
  repeat split; try assumption; try reflexivity.
  rewrite Hl. reflexivity.
Qed.

(** C8, amended.  A run that ends normally either logs and writes the empty
    string, which it does exactly when nothing changed and
    [skipCommentIfEmpty] is set, or logs a text that ends with the marker and
    writes a trimmed text that ends with the marker. *)
Theorem marker_ends_output (current base : option report)
    (log dir file content : string) :
  compare opts current base = Done log dir file content ->
  exists currentBundle baseBundle globalBundleCurrent globalBundleBase,
    current = Some currentBundle /\ base = Some baseBundle
    /\ get currentBundle "__global" = Some globalBundleCurrent
    /\ get baseBundle "__global" = Some globalBundleBase
    /\ if unchanged opts currentBundle baseBundle globalBundleCurrent
            globalBundleBase && skipCommentIfEmpty opts
       then log = EmptyString /\ content = EmptyString
       else Str.endsWith log (marker opts)
            /\ Str.endsWith content (marker opts).
Proof.
  intros H. apply compare_Done in H.
  destruct H as (cur & b & gC & gB & body & -> & -> & HgC & HgB & -> & ->).
  exists cur, b, gC, gB. repeat split; try assumption.
  destruct (unchanged opts cur b gC gB && skipCommentIfEmpty opts).
  - split; reflexivity.
  - rewrite trim_output.
    assert (E : Str.endsWith (header opts ++ body ++ marker opts) (marker opts)).
    { exists (header opts ++ body). apply eq_sym, append_assoc. }
    split; exact E.
Qed.

(** C3, amended.  When both reports hold a global bundle whose gzip sizes are
    equal or differ by no more than a configured threshold, and the reports
    agree on every other entry, the run logs the header, the sentinel and the
    marker, or the empty string when [skipCommentIfEmpty] is set, and writes
    the same text. *)
Theorem equal_reports_no_changes (currentBundle baseBundle : report)
    (globalBundleCurrent globalBundleBase : stats) :
  get currentBundle "__global" = Some globalBundleCurrent ->
  get baseBundle "__global" = Some globalBundleBase ->
  (forall p, p <> "__global" -> get currentBundle p = get baseBundle p) ->
  (gzip globalBundleCurrent - gzip globalBundleBase = 0
   \/ exists t, minimumChangeThreshold opts = Some t
                /\ Z.abs (gzip globalBundleCurrent - gzip globalBundleBase) <= t) ->
  compare opts (Some currentBundle) (Some baseBundle)
  = Done (if skipCommentIfEmpty opts then EmptyString else noChanges opts)
      (buildOutputDirectory opts) commentFile
      (if skipCommentIfEmpty opts then EmptyString else noChanges opts).
Proof.
  intros HgC HgB Hpages Hglobal.
  assert (Hchanges : globalBundleChanges opts globalBundleCurrent globalBundleBase
                     = None).
  { destruct Hglobal as [H0|[t [Ht Hle]]].
    - unfold globalBundleChanges. rewrite H0. reflexivity.
    - unfold globalBundleChanges, aboveThreshold. rewrite Ht.
      destruct (Z.gtb_spec
                  (Z.abs (gzip globalBundleCurrent - gzip globalBundleBase)) t);
        [lia|].
      rewrite andb_false_r. reflexivity. }
  assert (Hnone : analysePages opts (del "__global" currentBundle)
                    (del "__global" baseBundle) = ([], [])).
  { unfold analysePages.
    assert (Hfold : forall ks acc,
      (forall k, In k ks -> In k (keys (del "__global" currentBundle))) ->
      fold_left (analyse opts (del "__global" currentBundle)
                   (del "__global" baseBundle)) ks acc = acc).
    { induction ks as [|k ks IH]; intros acc Hks; simpl; [reflexivity|].
      assert (Hk : In k (keys (del "__global" currentBundle)))
        by (apply Hks; left; reflexivity).
      assert (Hstep : analyse opts (del "__global" currentBundle)
                        (del "__global" baseBundle) acc k = acc).
      { unfold analyse. destruct acc as [changed new].
        apply keys_del in Hk. destruct Hk as [Hne _].
        rewrite get_del_ne, read_del_ne by assumption.
        destruct (get currentBundle k) as [cs|] eqn:Hcs; [|reflexivity].
        rewrite (read_Own baseBundle k cs)
          by (rewrite <- (Hpages k Hne); exact Hcs).
        simpl. rewrite Z.eqb_refl. reflexivity. }
      rewrite Hstep. apply IH. intros q Hq. apply Hks. right. exact Hq. }
    apply Hfold. auto. }
  unfold compare. rewrite HgC, HgB, Hchanges.
  unfold changedPages, newPages. rewrite Hnone. simpl.
  unfold SKIP_COMMENT_IF_EMPTY, BUILD_OUTPUT_DIRECTORY.
  destruct (skipCommentIfEmpty opts); [reflexivity|].
  f_equal. exact (trim_output opts sentinel).
Qed.

End Output.

Lemma equal_reports_no_changes_witness :
  compare (host := Sample.host) Sample.plain
    (Some [("/a", Sample.st 100 50); ("__global", Sample.st 10 5)])
    (Some [("__global", Sample.st 12 5); ("/a", Sample.st 100 50)])
  = Done (noChanges Sample.plain) ".next" commentFile (noChanges Sample.plain).
Proof.
  apply (equal_reports_no_changes (host := Sample.host) Sample.plain
           [("/a", Sample.st 100 50); ("__global", Sample.st 10 5)]
           [("__global", Sample.st 12 5); ("/a", Sample.st 100 50)]
           (Sample.st 10 5) (Sample.st 12 5)).
  - reflexivity.
  - reflexivity.
  - intros p Hp. rewrite !get_cons.
    destruct (String.eqb_spec "__global" p) as [E|_]; [congruence|].
    reflexivity.
  - left. reflexivity.
Defined.

(** C3 as stated fails: the two reports below agree on every page, their
    global bundles differ, and the run logs the global bundle section, not
    the sentinel. *)
Lemma equal_pages_global_changed :
  (forall p, p <> "__global" ->
     get [("/a", Sample.st 100 50); ("__global", Sample.st 10 6)] p
     = get [("/a", Sample.st 100 50); ("__global", Sample.st 10 5)] p)
  /\ exists log,
       logged (compare (host := Sample.host) Sample.plain
                 (Some [("/a", Sample.st 100 50); ("__global", Sample.st 10 6)])
                 (Some [("/a", Sample.st 100 50); ("__global", Sample.st 10 5)]))
       = Some log
       /\ log <> noChanges Sample.plain
       /\ log <> EmptyString
       /\ index 0 sentinel log = None
       /\ index 0 "Global Bundle Size Increased" log <> None.
Proof.
  split.
  - intros p Hp. rewrite !get_cons.
    destruct (String.eqb "/a" p); [reflexivity|].
    destruct (String.eqb_spec "__global" p) as [E|_]; [congruence|].
    reflexivity.
  - eexists. split; [vm_compute; reflexivity|].
    repeat split; vm_compute; discriminate.
Qed.

Lemma marker_ends_output_witness :
  exists currentBundle baseBundle globalBundleCurrent globalBundleBase,
    Some [("/a", Sample.st 100 50); ("__global", Sample.st 10 5)]
    = Some currentBundle
    /\ Some [("/a", Sample.st 100 40); ("__global", Sample.st 10 5)]
       = Some baseBundle
    /\ get currentBundle "__global" = Some globalBundleCurrent
    /\ get baseBundle "__global" = Some globalBundleBase
    /\ if unchanged Sample.skipping currentBundle baseBundle
            globalBundleCurrent globalBundleBase
          && skipCommentIfEmpty Sample.skipping
       then Sample.changedLog = EmptyString /\ Sample.changedLog = EmptyString
       else Str.endsWith Sample.changedLog (marker Sample.skipping)
            /\ Str.endsWith Sample.changedLog (marker Sample.skipping).
Proof.
  apply (marker_ends_output (host := Sample.host) Sample.skipping
           (Some [("/a", Sample.st 100 50); ("__global", Sample.st 10 5)])
           (Some [("/a", Sample.st 100 40); ("__global", Sample.st 10 5)])
           Sample.changedLog ".next" commentFile Sample.changedLog).
  vm_compute. reflexivity.
Defined.

(** C8 as stated fails: with [skipCommentIfEmpty] set and no change, the run
    logs and writes the empty string, which does not end with the marker. *)
Lemma marker_absent_when_skipped :
  compare (host := Sample.host) Sample.skipping
    (Some [("/a", Sample.st 100 50); ("__global", Sample.st 10 5)])
    (Some [("/a", Sample.st 100 50); ("__global", Sample.st 10 5)])
  = Done EmptyString ".next" commentFile EmptyString
  /\ ~ Str.endsWith EmptyString (marker Sample.skipping).
Proof.
  split; [reflexivity|].
  intros [p Hp]. destruct p; discriminate Hp.
Qed.

(** ** The budget column *)

Section BudgetColumn.

Context {host : Host}.
Variable opts : options.
Import JS.

(** The calculations of a row with a delta that is a number and not zero,
    with both global bundles passed: the percentage named previous is taken
    from the current global bundle and from the page size plus its delta. *)
Lemma calculate_changed (globalBundleCurrent globalBundleBase : stats)
    (d : pageDiff) (gzd : Z) :
  gzipDiff d = Some (Diff gzd) -> gzd <> 0 ->
  calculate opts (Some globalBundleCurrent) (Some globalBundleBase) d
  = Some {|
      firstLoadSize := d_gzip d + gzip globalBundleCurrent;
      budgetPercentage :=
        if truthyOptZ (BUDGET opts)
        then percentOfBudget opts (d_gzip d + gzip globalBundleCurrent)
        else VNum 0%float;
      previousBudgetPercentage :=
        percentOfBudget opts (gzip globalBundleCurrent + d_gzip d + gzd);
      budgetChange :=
        VFixed (toFixed2
          (ToNumber (percentOfBudget opts
                       (gzip globalBundleCurrent + d_gzip d + gzd))
           - ToNumber (if truthyOptZ (BUDGET opts)
                       then percentOfBudget opts
                              (d_gzip d + gzip globalBundleCurrent)
                       else VNum 0%float))%float)
    |}.
Proof.
  intros Hd Hne. unfold calculate. rewrite Hd. cbn [isSome andb].
  assert (Ht : truthyZ gzd = true).
  { unfold truthyZ. apply negb_true_iff. apply Z.eqb_neq. exact Hne. }
  rewrite Ht. reflexivity.
Qed.

(** The calculations of a row without a delta, or with a delta that is
    NaN: no previous percentage and no budget change. *)
Lemma calculate_plain (globalBundleCurrent : stats)
    (globalBundleBase : option stats) (d : pageDiff) :
  gzipDiff d = None \/ gzipDiff d = Some NaN ->
  calculate opts (Some globalBundleCurrent) globalBundleBase d
  = Some {|
      firstLoadSize := d_gzip d + gzip globalBundleCurrent;
      budgetPercentage :=
        if truthyOptZ (BUDGET opts)
        then percentOfBudget opts (d_gzip d + gzip globalBundleCurrent)
        else VNum 0%float;
      previousBudgetPercentage := VNum 0%float;
      budgetChange := VNum 0%float
    |}.
Proof.
  intros [Hd|Hd]; unfold calculate; rewrite Hd; reflexivity.
Qed.

(** The column when the budget is shown and a previous percentage is
    passed. *)
Lemma renderBudgetPercentage_shown
    (budgetPercentage previousBudgetPercentage budgetChange : value) :
  ToBoolean previousBudgetPercentage = true ->
  renderBudgetPercentage opts true budgetPercentage previousBudgetPercentage
    budgetChange
  = " | " ++ text budgetPercentage ++ "%"
      ++ " _(" ++ renderStatusIndicator opts budgetChange
      ++ (if (abs (ToNumber budgetChange) <? cent)%float
          then negligible
          else text budgetChange ++ "%")
      ++ ")_".
Proof.
  intros Hprev. unfold renderBudgetPercentage. cbn [negb].
  rewrite Hprev, FloatOrder.float_ltb_abs. reflexivity.
Qed.

End BudgetColumn.

(** C2 at a page that grew from 500 to 504 bytes under a global bundle of
    500 bytes and a budget of 100000 bytes.  The first load is 1.00 percent
    of the budget before and after, so the difference between the current
    and the prior budget percentage is zero; the script takes 1.01 for the
    previous percentage and the row holds [+0.01%], not [+/- <0.01%]. *)
Theorem budget_change_text_at_input :
  changedPages (Sample.withBudget 100000)
    [("/a", Sample.st 1008 504)] [("/a", Sample.st 1000 500)]
  = [Sample.slight]
  /\ calculate (Sample.withBudget 100000) (Some (Sample.st 10 500))
       (Some (Sample.st 10 500)) Sample.slight
     = Some {| firstLoadSize := 1004;
               budgetPercentage := JS.VFixed (JS.FixedDec false 100);
               previousBudgetPercentage := JS.VFixed (JS.FixedDec false 101);
               budgetChange := JS.VFixed (JS.FixedDec false 1) |}
  /\ renderRow (host := Sample.host) (Sample.withBudget 100000)
       (Some (Sample.st 10 500)) (Some (Sample.st 10 500)) Sample.slight
     = Some ("| `/a` | `504" ++ nbsp ++ "B` | 1004" ++ nbsp
             ++ "B | 1.00% _(🟡 +0.01%)_ |" ++ Str.nl)
  /\ specPreviousBudgetPercentage (Sample.withBudget 100000)
       (Sample.st 10 500) (Sample.st 1000 500)
     = JS.VFixed (JS.FixedDec false 100)
  /\ specBudgetChange (JS.VFixed (JS.FixedDec false 100))
       (JS.VFixed (JS.FixedDec false 100))
     = JS.VFixed (JS.FixedDec false 0)
  /\ (abs (JS.ToNumber (specBudgetChange (JS.VFixed (JS.FixedDec false 100))
                          (JS.VFixed (JS.FixedDec false 100))))
      <? JS.cent)%float = true.
Proof.
  repeat split; vm_compute; reflexivity.
Qed.

(** C1 at a page that grew from 40 to 50 bytes while the global bundle grew
    from 90 to 100 bytes, with a budget of 1000 bytes.  The script takes
    16.00 for the previous percentage and reports a change of 1.00; the prior
    first load of 130 bytes is 13.00 percent of the budget and the current
    percentage of 15.00 is 2.00 above it. *)
Theorem previous_budget_percentage_at_input :
  changedPages (Sample.withBudget 1000)
    [("/a", Sample.st 100 50)] [("/a", Sample.st 80 40)] = [Sample.grown]
  /\ calculate (Sample.withBudget 1000) (Some (Sample.st 10 100))
       (Some (Sample.st 10 90)) Sample.grown
     = Some {| firstLoadSize := 150;
               budgetPercentage := JS.VFixed (JS.FixedDec false 1500);
               previousBudgetPercentage := JS.VFixed (JS.FixedDec false 1600);
               budgetChange := JS.VFixed (JS.FixedDec false 100) |}
  /\ specPreviousBudgetPercentage (Sample.withBudget 1000)
       (Sample.st 10 90) (Sample.st 80 40)
     = JS.VFixed (JS.FixedDec false 1300)
  /\ specBudgetChange (JS.VFixed (JS.FixedDec false 1500))
       (JS.VFixed (JS.FixedDec false 1300))
     = JS.VFixed (JS.FixedDec false 200)
  /\ renderRow (host := Sample.host) (Sample.withBudget 1000)
       (Some (Sample.st 10 100)) (Some (Sample.st 10 90)) Sample.grown
     = Some ("| `/a` | `50" ++ nbsp ++ "B` | 150" ++ nbsp
             ++ "B | 15.00% _(🟡 +1.00%)_ |" ++ Str.nl).
Proof.
  repeat split; vm_compute; reflexivity.
Qed.

(** * Further properties *)

(** ** The loop over the pages *)

Section Loop.

Variable opts : options.
Variables currentBundle baseBundle : report.

Lemma analyse_pages (acc : list pageDiff * list pageDiff) (p : string) :
  In p (keys currentBundle) ->
  pagesOf (fst (analyse opts currentBundle baseBundle acc p))
  = (pagesOf (fst acc)
     ++ filter (isChanged opts currentBundle baseBundle) [p])%list
  /\ pagesOf (snd (analyse opts currentBundle baseBundle acc p))
     = (pagesOf (snd acc) ++ filter (isNew baseBundle) [p])%list.
Proof.
  intros Hkey. destruct (get_key currentBundle p Hkey) as [cs Hcs].
  destruct acc as [changed new].
  unfold analyse, isChanged, isNew, pagesOf. simpl. rewrite Hcs.
  destruct (read baseBundle p) as [bs| |]; simpl;
    repeat match goal with
    | |- context [if ?c then _ else _] => destruct c; simpl
    end;
    rewrite ?map_app, ?app_nil_r; auto.
Qed.

Lemma fold_analyse_pages (ks : list string) :
  forall acc,
  (forall p, In p ks -> In p (keys currentBundle)) ->
  pagesOf (fst (fold_left (analyse opts currentBundle baseBundle) ks acc))
  = (pagesOf (fst acc)
     ++ filter (isChanged opts currentBundle baseBundle) ks)%list
  /\ pagesOf (snd (fold_left (analyse opts currentBundle baseBundle) ks acc))
     = (pagesOf (snd acc) ++ filter (isNew baseBundle) ks)%list.
Proof.
  induction ks as [|k ks IH]; intros acc Hks; simpl fold_left.
  - simpl. rewrite !app_nil_r. auto.
  - assert (Hk : In k (keys currentBundle)) by (apply Hks; left; reflexivity).
    destruct (analyse_pages acc k Hk) as [Hc Hn].
    destruct (IH (analyse opts currentBundle baseBundle acc k)) as [IHc IHn].
    { intros p Hp. apply Hks. right. exact Hp. }
    rewrite IHc, IHn, Hc, Hn.
    change (k :: ks) with ([k] ++ ks)%list. rewrite !filter_app, !app_assoc.
    auto.
Qed.

(** X1.  The new pages are the pages of the current report at which
    [baseBundle[page]] is [undefined], that is, which the base report does
    not hold and Object.prototype does not define, in the order of the
    current report; neither the sizes nor the options have a part in it. *)
Theorem new_pages_in_order :
  pagesOf (newPages opts currentBundle baseBundle)
  = filter (isNew baseBundle) (keys currentBundle).
Proof.
  unfold newPages, analysePages.
  exact (proj2 (fold_analyse_pages (keys currentBundle) ([], [])
                  (fun p H => H))).
Qed.

(** X2.  The changed pages are the pages of the current report at which
    [baseBundle[page]] is not [undefined], with another gzip size and a
    difference that passes the threshold, in the order of the current
    report: the pages that the base report holds with another gzip size
    and, without a threshold, the pages that only Object.prototype
    defines. *)
Theorem changed_pages_in_order :
  pagesOf (changedPages opts currentBundle baseBundle)
  = filter (isChanged opts currentBundle baseBundle) (keys currentBundle).
Proof.
  unfold changedPages, analysePages.
  exact (proj1 (fold_analyse_pages (keys currentBundle) ([], [])
                  (fun p H => H))).
Qed.

Lemma new_not_changed (p : string) :
  isNew baseBundle p = true ->
  isChanged opts currentBundle baseBundle p = false.
Proof.
  unfold isNew, isChanged. destruct (get currentBundle p); [|reflexivity].
  destruct (read baseBundle p); [discriminate|discriminate|reflexivity].
Qed.

(** X3.  With pairwise distinct keys in the current report, no page has two
    rows: the pages of the new rows followed by the pages of the changed rows
    hold no page twice. *)
Theorem one_row_per_page :
  NoDup (keys currentBundle) ->
  NoDup (pagesOf (newPages opts currentBundle baseBundle)
         ++ pagesOf (changedPages opts currentBundle baseBundle)).
Proof.
  intros Hnodup.
  pose proof (proj2 (fold_analyse_pages (keys currentBundle) ([], [])
                       (fun p H => H))) as Hn.
  pose proof (proj1 (fold_analyse_pages (keys currentBundle) ([], [])
                       (fun p H => H))) as Hc.
  unfold newPages, changedPages, analysePages. simpl in Hn, Hc.
  rewrite Hn, Hc.
  apply NoDup_app; try (apply NoDup_filter; exact Hnodup).
  intros p Hp Hq. apply filter_In in Hp. apply filter_In in Hq.
  destruct Hp as [_ Hp]. destruct Hq as [_ Hq].
  rewrite (new_not_changed p Hp) in Hq. discriminate.
Qed.

End Loop.

Lemma isChanged_threshold (opts opts' : options)
    (currentBundle baseBundle : report) (p : string) :
  (forall d, aboveThresholdDiff opts' d = true ->
             aboveThresholdDiff opts d = true) ->
  isChanged opts' currentBundle baseBundle p = true ->
  isChanged opts currentBundle baseBundle p = true.
Proof.
  intros Hthr. unfold isChanged.
  destruct (get currentBundle p) as [cs|]; [|discriminate].
  destruct (read baseBundle p) as [bs| |]; try discriminate;
    intros H; apply andb_true_iff in H; destruct H as [H1 H2];
    rewrite H1, (Hthr _ H2); reflexivity.
Qed.

(** X4.  A greater minimum change threshold reports no page that a smaller
    one, or none, does not report. *)
Theorem threshold_only_hides (opts opts' : options)
    (currentBundle baseBundle : report) (t' : Z) :
  minimumChangeThreshold opts' = Some t' ->
  (minimumChangeThreshold opts = None
   \/ exists t, minimumChangeThreshold opts = Some t /\ t <= t') ->
  incl (pagesOf (changedPages opts' currentBundle baseBundle))
       (pagesOf (changedPages opts currentBundle baseBundle)).
Proof.
  intros Ht' Ht p Hp.
  pose proof (proj1 (fold_analyse_pages opts' currentBundle baseBundle
                       (keys currentBundle) ([], []) (fun p H => H))) as E'.
  pose proof (proj1 (fold_analyse_pages opts currentBundle baseBundle
                       (keys currentBundle) ([], []) (fun p H => H))) as E.
  unfold changedPages, analysePages in *. simpl in E, E'.
  rewrite E' in Hp. rewrite E.
  apply filter_In in Hp. destruct Hp as [Hk Hp]. apply filter_In.
  split; [exact Hk|].
  apply (isChanged_threshold opts opts'); [|exact Hp].
  intros [z|]; unfold aboveThresholdDiff, aboveThreshold; rewrite Ht';
    destruct Ht as [->|[t [-> Hle]]]; try reflexivity; try discriminate.
  intros H. lia.
Qed.

Lemma new_pages_in_order_witness :
  pagesOf (newPages Sample.plain
             [("/b", Sample.st 1 1); ("/a", Sample.st 100 50)]
             [("/a", Sample.st 100 50)])
  = filter (isNew [("/a", Sample.st 100 50)])
      (keys [("/b", Sample.st 1 1); ("/a", Sample.st 100 50)]).
Proof.
  exact (new_pages_in_order Sample.plain
           [("/b", Sample.st 1 1); ("/a", Sample.st 100 50)]
           [("/a", Sample.st 100 50)]).
Defined.

Lemma one_row_per_page_witness :
  NoDup (pagesOf (newPages Sample.plain
                    [("/b", Sample.st 1 1); ("/a", Sample.st 100 50)]
                    [("/a", Sample.st 80 40)])
         ++ pagesOf (changedPages Sample.plain
                       [("/b", Sample.st 1 1); ("/a", Sample.st 100 50)]
                       [("/a", Sample.st 80 40)])).
Proof.
  apply (one_row_per_page Sample.plain
           [("/b", Sample.st 1 1); ("/a", Sample.st 100 50)]
           [("/a", Sample.st 80 40)]).
  simpl. repeat constructor; simpl; intuition discriminate.
Defined.

Lemma threshold_only_hides_witness :
  incl (pagesOf (changedPages (Sample.withThreshold 20)
                   [("/a", Sample.st 100 50)] [("/a", Sample.st 80 40)]))
       (pagesOf (changedPages (Sample.withThreshold 5)
                   [("/a", Sample.st 100 50)] [("/a", Sample.st 80 40)])).
Proof.
  apply (threshold_only_hides (Sample.withThreshold 5)
           (Sample.withThreshold 20)
           [("/a", Sample.st 100 50)] [("/a", Sample.st 80 40)] 20).
  - reflexivity.
  - right. exists 5. split; [reflexivity|lia].
Defined.

(** ** Runs that end normally *)

Section Normal.

Context {host : Host}.
Variable opts : options.

(** The only [TypeError] of a table: the base global bundle passed without
    the current one. *)
Lemma calculate_Some (globalBundleCurrent globalBundleBase : option stats)
    (d : pageDiff) :
  globalBundleCurrent <> None \/ globalBundleBase = None ->
  exists c, calculate opts globalBundleCurrent globalBundleBase d = Some c.
Proof.
  intros H. unfold calculate.
  destruct (gzipDiff d) as [[gzd|]|]; [|eauto|eauto].
  destruct globalBundleBase as [gB|]; simpl.
  - destruct globalBundleCurrent as [gC|].
    + destruct (JS.truthyZ gzd); eauto.
    + destruct H; congruence.
  - eauto.
Qed.

Lemma renderRows_Some (globalBundleCurrent globalBundleBase : option stats)
    (data : list pageDiff) :
  globalBundleCurrent <> None \/ globalBundleBase = None ->
  exists rows,
    renderRows opts globalBundleCurrent globalBundleBase data = Some rows.
Proof.
  intros H. induction data as [|d data [rows IH]]; simpl; [eauto|].
  unfold renderRow.
  destruct (calculate_Some globalBundleCurrent globalBundleBase d H) as [c ->].
  rewrite IH. eauto.
Qed.

Lemma markdownTable_Some (data : list pageDiff)
    (globalBundleCurrent globalBundleBase : option stats) :
  globalBundleCurrent <> None \/ globalBundleBase = None ->
  exists table,
    markdownTable opts data globalBundleCurrent globalBundleBase = Some table.
Proof.
  intros H. unfold markdownTable.
  destruct (renderRows_Some globalBundleCurrent globalBundleBase data H)
    as [rows ->].
  eauto.
Qed.

Lemma globalSection_Some (changes : option pageDiff) :
  exists s, globalSection opts changes = Some s.
Proof.
  unfold globalSection. destruct changes as [g|]; [|eauto].
  destruct (markdownTable_Some [g] None None) as [t ->]; eauto.
Qed.

Lemma newSection_Some (new : list pageDiff) (globalBundleCurrent : stats) :
  exists s, newSection opts new globalBundleCurrent = Some s.
Proof.
  unfold newSection. destruct (List.length new =? 0)%nat; [eauto|].
  destruct (markdownTable_Some new (Some globalBundleCurrent) None) as [t ->];
    eauto.
Qed.

Lemma changedSection_Some (changed : list pageDiff)
    (globalBundleCurrent globalBundleBase : stats) :
  exists s,
    changedSection opts changed globalBundleCurrent globalBundleBase = Some s.
Proof.
  unfold changedSection. destruct (List.length changed =? 0)%nat; [eauto|].
  destruct (markdownTable_Some changed (Some globalBundleCurrent)
              (Some globalBundleBase)) as [t ->];
    [left; discriminate|eauto].
Qed.

(** X5.  With both reports loaded, the run dies, of a [TypeError], exactly
    when one of them lacks the [__global] entry; otherwise it logs a text and
    writes the comment file under the build output directory. *)
Theorem loaded_run_outcome (currentBundle baseBundle : report) :
  (get currentBundle "__global" = None \/ get baseBundle "__global" = None ->
   compare opts (Some currentBundle) (Some baseBundle) = Fatal TypeError)
  /\ (get currentBundle "__global" <> None ->
      get baseBundle "__global" <> None ->
      exists log content,
        compare opts (Some currentBundle) (Some baseBundle)
        = Done log (buildOutputDirectory opts) commentFile content).
Proof.
  unfold compare. split.
  - intros [H|H]; rewrite H; [reflexivity|].
    destruct (get currentBundle "__global"); reflexivity.
  - intros HgC HgB.
    destruct (get currentBundle "__global") as [gC|]; [|congruence].
    destruct (get baseBundle "__global") as [gB|]; [|congruence].
    cbv zeta.
    destruct (globalSection_Some (globalBundleChanges opts gC gB)) as [sg ->].
    destruct (newSection_Some
                (newPages opts (del "__global" currentBundle)
                   (del "__global" baseBundle)) gC) as [sn ->].
    destruct (changedSection_Some
                (changedPages opts (del "__global" currentBundle)
                   (del "__global" baseBundle)) gC gB) as [sc ->].
    eauto.
Qed.

(** X6.  The file written holds the very text that is logged: trimming
    removes nothing from it. *)
Theorem written_is_logged (current base : option report)
    (log dir file content : string) :
  compare opts current base = Done log dir file content ->
  content = log.
Proof.
  intros H. apply compare_Done in H.
  destruct H as (cur & b & gC & gB & body & _ & _ & _ & _ & -> & ->).
  destruct (unchanged opts cur b gC gB && skipCommentIfEmpty opts).
  - reflexivity.
  - apply trim_output.
Qed.

End Normal.

Lemma loaded_run_outcome_witness :
  compare (host := Sample.host) Sample.plain
    (Some [("/a", Sample.st 100 50)])
    (Some [("/a", Sample.st 80 40); ("__global", Sample.st 10 5)])
  = Fatal TypeError.
Proof.
  apply (proj1 (loaded_run_outcome (host := Sample.host) Sample.plain
                  [("/a", Sample.st 100 50)]
                  [("/a", Sample.st 80 40); ("__global", Sample.st 10 5)])).
  left. reflexivity.
Defined.

Lemma written_is_logged_witness :
  Sample.changedLog = Sample.changedLog.
Proof.
  apply (written_is_logged (host := Sample.host) Sample.plain
           (Some [("/a", Sample.st 100 50); ("__global", Sample.st 10 5)])
           (Some [("/a", Sample.st 100 40); ("__global", Sample.st 10 5)])
           Sample.changedLog ".next" commentFile Sample.changedLog).
  vm_compute. reflexivity.
Defined.

(** X7.  When something changed, [skipCommentIfEmpty] has no effect on the
    run. *)
Theorem skip_only_when_unchanged {host : Host} (opts : options)
    (currentBundle baseBundle : report)
    (globalBundleCurrent globalBundleBase : stats) (skip skip' : bool) :
  get currentBundle "__global" = Some globalBundleCurrent ->
  get baseBundle "__global" = Some globalBundleBase ->
  unchanged opts currentBundle baseBundle globalBundleCurrent globalBundleBase
  = false ->
  compare (withSkip opts skip) (Some currentBundle) (Some baseBundle)
  = compare (withSkip opts skip') (Some currentBundle) (Some baseBundle).
Proof.
  intros HgC HgB Hun. unfold compare. rewrite HgC, HgB. cbv zeta.
  unfold unchanged in Hun.
  change (globalBundleChanges (withSkip opts skip))
    with (globalBundleChanges opts).
  change (globalBundleChanges (withSkip opts skip'))
    with (globalBundleChanges opts).
  change (changedPages (withSkip opts skip)) with (changedPages opts).
  change (changedPages (withSkip opts skip')) with (changedPages opts).
  change (newPages (withSkip opts skip)) with (newPages opts).
  change (newPages (withSkip opts skip')) with (newPages opts).
  change (globalSection (withSkip opts skip)) with (globalSection opts).
  change (globalSection (withSkip opts skip')) with (globalSection opts).
  change (newSection (withSkip opts skip)) with (newSection opts).
  change (newSection (withSkip opts skip')) with (newSection opts).
  change (changedSection (withSkip opts skip)) with (changedSection opts).
  change (changedSection (withSkip opts skip')) with (changedSection opts).
  rewrite Hun. reflexivity.
Qed.

Lemma skip_only_when_unchanged_witness :
  compare (host := Sample.host) (withSkip Sample.plain true)
    (Some [("/a", Sample.st 100 50); ("__global", Sample.st 10 5)])
    (Some [("/a", Sample.st 80 40); ("__global", Sample.st 10 5)])
  = compare (host := Sample.host) (withSkip Sample.plain false)
      (Some [("/a", Sample.st 100 50); ("__global", Sample.st 10 5)])
      (Some [("/a", Sample.st 80 40); ("__global", Sample.st 10 5)]).
Proof.
  apply (skip_only_when_unchanged (host := Sample.host) Sample.plain
           [("/a", Sample.st 100 50); ("__global", Sample.st 10 5)]
           [("/a", Sample.st 80 40); ("__global", Sample.st 10 5)]
           (Sample.st 10 5) (Sample.st 10 5) true false);
    reflexivity.
Defined.

(** ** The rows of the tables *)

Section Rows.

Context {host : Host}.
Variable opts : options.
Import JS.

(** X8.  The row of a changed page holds the page, its size and the first
    load (the size plus the current global bundle).  When the gzip delta is
    a number, the row holds one delta: without a budget the size delta next
    to the size and no budget column, with a budget the budget column with
    the budget change and no size delta.  When the gzip delta is NaN, which
    it is for a page that the base report does not hold and that
    Object.prototype defines, the row holds no delta at all. *)
Theorem changed_row (currentBundle baseBundle : report)
    (globalBundleCurrent globalBundleBase : stats) (d : pageDiff) :
  In d (changedPages opts currentBundle baseBundle) ->
  (exists gzd,
     gzipDiff d = Some (Diff gzd) /\ gzd <> 0
     /\ renderRow opts (Some globalBundleCurrent) (Some globalBundleBase) d
        = Some ("| `" ++ page d ++ "`"
                ++ (" | `" ++ filesize (d_gzip d) ++ "`"
                    ++ (if truthyOptZ (BUDGET opts) then EmptyString
                        else " _("
                               ++ renderStatusIndicator opts
                                    (VNum (percentChange gzd (d_gzip d)))
                               ++ filesize gzd ++ ")_"))
                ++ (" | " ++ filesize (d_gzip d + gzip globalBundleCurrent))
                ++ (if truthyOptZ (BUDGET opts)
                    then " | "
                           ++ text (percentOfBudget opts
                                      (d_gzip d + gzip globalBundleCurrent))
                           ++ "%"
                           ++ " _("
                           ++ renderStatusIndicator opts
                                (scriptBudgetChange opts globalBundleCurrent
                                   d gzd)
                           ++ (if (abs (ToNumber
                                          (scriptBudgetChange opts
                                             globalBundleCurrent d gzd))
                                   <? cent)%float
                               then negligible
                               else text (scriptBudgetChange opts
                                            globalBundleCurrent d gzd)
                                      ++ "%")
                           ++ ")_"
                    else EmptyString)
                ++ " |" ++ Str.nl))
  \/ (gzipDiff d = Some NaN
      /\ get baseBundle (page d) = None
      /\ In (page d) objectPrototype
      /\ renderRow opts (Some globalBundleCurrent) (Some globalBundleBase) d
         = Some ("| `" ++ page d ++ "`"
                 ++ (" | `" ++ filesize (d_gzip d) ++ "`")
                 ++ (" | " ++ filesize (d_gzip d + gzip globalBundleCurrent))
                 ++ (if truthyOptZ (BUDGET opts)
                     then " | "
                            ++ text (percentOfBudget opts
                                       (d_gzip d + gzip globalBundleCurrent))
                            ++ "%"
                     else EmptyString)
                 ++ " |" ++ Str.nl)).
Proof.
  intros Hd. apply changed_entry_kinds in Hd.
  destruct Hd as [(cs & bs & _ & _ & Hne & Hd)|(cs & _ & Hb & Hin & _ & Hd)].
  - left. exists (gzip cs - gzip bs).
    assert (Hgzd : gzipDiff d = Some (Diff (gzip cs - gzip bs)))
      by (rewrite Hd; reflexivity).
    assert (Hne' : gzip cs - gzip bs <> 0) by lia.
    split; [exact Hgzd|]. split; [exact Hne'|].
    unfold renderRow.
    rewrite (calculate_changed opts globalBundleCurrent globalBundleBase d
               (gzip cs - gzip bs) Hgzd Hne').
    cbn [firstLoadSize budgetPercentage previousBudgetPercentage budgetChange].
    unfold renderSize, renderFirstLoad, scriptBudgetChange. rewrite Hgzd.
    assert (Ht : truthyZ (gzip cs - gzip bs) = true).
    { unfold truthyZ. apply negb_true_iff. apply Z.eqb_neq. exact Hne'. }
    rewrite Ht. cbn [isSome andb].
    destruct (truthyOptZ (BUDGET opts)) eqn:Hbud; cbn [andb negb].
    + rewrite renderBudgetPercentage_shown by reflexivity. reflexivity.
    + reflexivity.
  - right.
    assert (Hgzd : gzipDiff d = Some NaN) by (rewrite Hd; reflexivity).
    split; [exact Hgzd|]. split; [exact Hb|]. split; [exact Hin|].
    unfold renderRow.
    rewrite (calculate_plain opts globalBundleCurrent (Some globalBundleBase) d
               (or_intror Hgzd)).
    cbn [firstLoadSize budgetPercentage previousBudgetPercentage budgetChange].
    unfold renderSize, renderFirstLoad, renderBudgetPercentage. rewrite Hgzd.
    cbn [isSome andb].
    destruct (truthyOptZ (BUDGET opts)); cbn [negb ToBoolean];
      repeat (progress (simpl; rewrite ?append_assoc)); reflexivity.
Qed.

(** X9.  The row of a new page holds the page, its size, the first load and,
    with a budget, the percentage of the budget: it holds no delta and no
    status indicator. *)
Theorem new_row (currentBundle baseBundle : report)
    (globalBundleCurrent : stats) (d : pageDiff) :
  In d (newPages opts currentBundle baseBundle) ->
  renderRow opts (Some globalBundleCurrent) None d
  = Some ("| `" ++ page d ++ "`"
          ++ (" | `" ++ filesize (d_gzip d) ++ "`")
          ++ (" | " ++ filesize (d_gzip d + gzip globalBundleCurrent))
          ++ (if truthyOptZ (BUDGET opts)
              then " | "
                     ++ text (percentOfBudget opts
                                (d_gzip d + gzip globalBundleCurrent))
                     ++ "%"
              else EmptyString)
          ++ " |" ++ Str.nl).
Proof.
  intros Hd. apply newPages_In in Hd.
  destruct Hd as (_ & cs & _ & _ & ->).
  unfold renderRow, calculate, renderSize, renderFirstLoad,
    renderBudgetPercentage.
  cbn [gzipDiff d_gzip page isSome andb firstLoadSize budgetPercentage
       previousBudgetPercentage budgetChange].
  destruct (truthyOptZ (BUDGET opts)); cbn [negb ToBoolean];
    repeat (progress (simpl; rewrite ?append_assoc)); reflexivity.
Qed.

(** X10.  A flagged change of the global bundle is announced as an increase
    when the gzip size grew and as a decrease when it shrank, and its table
    has the single row of the global bundle, with the size and the size
    delta: no first load and no budget column, whatever the budget. *)
Theorem global_section (globalBundleCurrent globalBundleBase : stats)
    (g : pageDiff) :
  globalBundleChanges opts globalBundleCurrent globalBundleBase = Some g ->
  globalSection opts (Some g)
  = Some ("### "
          ++ (if 0 <? gzip globalBundleCurrent - gzip globalBundleBase
              then "⚠️" else "🎉")
          ++ "  Global Bundle Size "
          ++ (if 0 <? gzip globalBundleCurrent - gzip globalBundleBase
              then "Increased" else "Decreased")
          ++ Str.nl ++ "  " ++ Str.nl
          ++ ("Page | Size (compressed) | " ++ Str.nl
              ++ "|---|---|" ++ Str.nl
              ++ "| `global` | `" ++ filesize (gzip globalBundleCurrent) ++ "`"
              ++ " _("
              ++ renderStatusIndicator opts
                   (VNum (percentChange
                            (gzip globalBundleCurrent - gzip globalBundleBase)
                            (gzip globalBundleCurrent)))
              ++ filesize (gzip globalBundleCurrent - gzip globalBundleBase)
              ++ ")_ |" ++ Str.nl)
          ++ (if SHOW_DETAILS opts then globalDetails else EmptyString)).
Proof.
  intros Hg.
  assert (Hne : gzip globalBundleCurrent - gzip globalBundleBase <> 0).
  { unfold globalBundleChanges in Hg.
    destruct (Z.eqb_spec (gzip globalBundleCurrent - gzip globalBundleBase) 0);
      [discriminate|assumption]. }
  apply globalBundleChanges_entry in Hg. subst g.
  set (delta := gzip globalBundleCurrent - gzip globalBundleBase) in *.
  assert (Hs : (Z.sgn delta >? 0) = (0 <? delta)).
  { rewrite Z.gtb_ltb.
    destruct (Z.sgn_spec delta) as [[H ->]|[[H ->]|[H ->]]];
      destruct (Z.ltb_spec 0 delta); try reflexivity; lia. }
  assert (Ht : truthyZ delta = true).
  { unfold truthyZ. apply negb_true_iff. apply Z.eqb_neq. exact Hne. }
  unfold globalSection, markdownTable, renderRows, renderRow, calculate,
    renderSize, renderFirstLoad, renderBudgetPercentage.
  cbn [gzipDiff d_gzip page increase isTrue isSome andb negb firstLoadSize
       budgetPercentage previousBudgetPercentage budgetChange].
  rewrite Hs, Ht, andb_false_r. cbn [andb negb].
  destruct (0 <? delta);
    repeat (progress (simpl; rewrite ?append_assoc)); reflexivity.
Qed.

End Rows.

Lemma changed_row_witness :
  (exists gzd,
     gzipDiff Sample.grown = Some (Diff gzd) /\ gzd <> 0
     /\ renderRow (host := Sample.host) Sample.plain (Some (Sample.st 10 5))
          (Some (Sample.st 10 5)) Sample.grown
        = Some ("| `" ++ page Sample.grown ++ "`"
                ++ (" | `" ++ filesize (host := Sample.host)
                                (d_gzip Sample.grown) ++ "`"
                    ++ (if JS.truthyOptZ (BUDGET Sample.plain) then EmptyString
                        else " _("
                               ++ renderStatusIndicator Sample.plain
                                    (JS.VNum (percentChange gzd
                                                (d_gzip Sample.grown)))
                               ++ filesize (host := Sample.host) gzd ++ ")_"))
                ++ (" | " ++ filesize (host := Sample.host)
                               (d_gzip Sample.grown + gzip (Sample.st 10 5)))
                ++ (if JS.truthyOptZ (BUDGET Sample.plain)
                    then " | "
                           ++ text (host := Sample.host)
                                (percentOfBudget Sample.plain
                                   (d_gzip Sample.grown
                                    + gzip (Sample.st 10 5)))
                           ++ "%"
                           ++ " _("
                           ++ renderStatusIndicator Sample.plain
                                (scriptBudgetChange Sample.plain
                                   (Sample.st 10 5) Sample.grown gzd)
                           ++ (if (abs (JS.ToNumber
                                          (scriptBudgetChange Sample.plain
                                             (Sample.st 10 5) Sample.grown
                                             gzd))
                                   <? JS.cent)%float
                               then negligible
                               else text (host := Sample.host)
                                      (scriptBudgetChange Sample.plain
                                         (Sample.st 10 5) Sample.grown gzd)
                                      ++ "%")
                           ++ ")_"
                    else EmptyString)
                ++ " |" ++ Str.nl))
  \/ (gzipDiff Sample.grown = Some NaN
      /\ get [("/a", Sample.st 80 40)] (page Sample.grown) = None
      /\ In (page Sample.grown) objectPrototype
      /\ renderRow (host := Sample.host) Sample.plain (Some (Sample.st 10 5))
           (Some (Sample.st 10 5)) Sample.grown
         = Some ("| `" ++ page Sample.grown ++ "`"
                 ++ (" | `" ++ filesize (host := Sample.host)
                                 (d_gzip Sample.grown) ++ "`")
                 ++ (" | " ++ filesize (host := Sample.host)
                                (d_gzip Sample.grown + gzip (Sample.st 10 5)))
                 ++ (if JS.truthyOptZ (BUDGET Sample.plain)
                     then " | "
                            ++ text (host := Sample.host)
                                 (percentOfBudget Sample.plain
                                    (d_gzip Sample.grown
                                     + gzip (Sample.st 10 5)))
                            ++ "%"
                     else EmptyString)
                 ++ " |" ++ Str.nl)).
Proof.
  apply (changed_row (host := Sample.host) Sample.plain
           [("/a", Sample.st 100 50)] [("/a", Sample.st 80 40)]
           (Sample.st 10 5) (Sample.st 10 5) Sample.grown).
  left. reflexivity.
Defined.

Lemma new_row_witness :
  renderRow (host := Sample.host) (Sample.withBudget 1000)
    (Some (Sample.st 10 100)) None Sample.added
  = Some ("| `" ++ page Sample.added ++ "`"
          ++ (" | `" ++ filesize (host := Sample.host)
                          (d_gzip Sample.added) ++ "`")
          ++ (" | " ++ filesize (host := Sample.host)
                         (d_gzip Sample.added + gzip (Sample.st 10 100)))
          ++ (if JS.truthyOptZ (BUDGET (Sample.withBudget 1000))
              then " | "
                     ++ text (host := Sample.host)
                          (percentOfBudget (Sample.withBudget 1000)
                             (d_gzip Sample.added + gzip (Sample.st 10 100)))
                     ++ "%"
              else EmptyString)
          ++ " |" ++ Str.nl).
Proof.
  apply (new_row (host := Sample.host) (Sample.withBudget 1000)
           [("/n", Sample.st 3 1)] [] (Sample.st 10 100) Sample.added).
  left. reflexivity.
Defined.

Lemma global_section_witness :
  globalSection (host := Sample.host) Sample.plain (Some Sample.shrunkGlobal)
  = Some ("### "
          ++ (if 0 <? gzip (Sample.st 10 5) - gzip (Sample.st 10 8)
              then "⚠️" else "🎉")
          ++ "  Global Bundle Size "
          ++ (if 0 <? gzip (Sample.st 10 5) - gzip (Sample.st 10 8)
              then "Increased" else "Decreased")
          ++ Str.nl ++ "  " ++ Str.nl
          ++ ("Page | Size (compressed) | " ++ Str.nl
              ++ "|---|---|" ++ Str.nl
              ++ "| `global` | `"
              ++ filesize (host := Sample.host) (gzip (Sample.st 10 5)) ++ "`"
              ++ " _("
              ++ renderStatusIndicator Sample.plain
                   (JS.VNum (percentChange
                               (gzip (Sample.st 10 5) - gzip (Sample.st 10 8))
                               (gzip (Sample.st 10 5))))
              ++ filesize (host := Sample.host)
                   (gzip (Sample.st 10 5) - gzip (Sample.st 10 8))
              ++ ")_ |" ++ Str.nl)
          ++ (if SHOW_DETAILS Sample.plain then globalDetails
              else EmptyString)).
Proof.
  apply (global_section (host := Sample.host) Sample.plain
           (Sample.st 10 5) (Sample.st 10 8) Sample.shrunkGlobal).
  reflexivity.
Defined.

(** ** The indicator of a delta that is not positive *)

Section Neutral.

Variable opts : options.
Import JS FloatOrder.

Lemma SFleb_ltb_trans x y z :
  SFleb x y = true -> SFltb y z = true -> SFltb x z = true.
Proof.
  destruct x as [sx|sx| |sx mx ex], y as [sy|sy| |sy my ey],
    z as [sz|sz| |sz mz ez]; sf_solve.
Qed.

Lemma float_leb_ltb_trans (x y z : float) :
  (x <=? y)%float = true -> (y <? z)%float = true -> (x <? z)%float = true.
Proof. rewrite leb_spec, !ltb_spec. apply SFleb_ltb_trans. Qed.

(** X11.  With a positive red threshold and a delta that is a number, there
    is no indicator exactly when the delta is at most zero and above -0.01,
    and the indicator is green exactly when the delta is at most -0.01. *)
Theorem neutral_or_green (percentageChange : value) :
  (0 <? BUDGET_PERCENT_INCREASE_RED opts)%float = true ->
  is_nan (ToNumber percentageChange) = false ->
  (renderStatusIndicator opts percentageChange = EmptyString
     <-> ((ToNumber percentageChange <=? 0)
          && (- cent <? ToNumber percentageChange))%float = true)
  /\ (renderStatusIndicator opts percentageChange = green
     <-> (ToNumber percentageChange <=? - cent)%float = true).
Proof.
  intros Hpos Hnum.
  set (x := ToNumber percentageChange) in *.
  set (threshold := BUDGET_PERCENT_INCREASE_RED opts) in *.
  destruct (float_ltb_notNaN _ _ Hpos) as [_ Hthr].
  assert (Hzero : is_nan 0%float = false) by reflexivity.
  assert (Hmc : is_nan (- cent)%float = false) by reflexivity.
  assert (Hc0 : (- cent <=? 0)%float = true) by reflexivity.
  assert (H0c : (0 <? cent)%float = true) by reflexivity.
  assert (Hgreen : (x <=? - cent)%float = true -> (x <=? 0)%float = true).
  { intros H. exact (float_leb_trans x (- cent)%float 0%float H Hc0). }
  assert (Hexcl : (x <=? - cent)%float = true -> (- cent <? x)%float = false).
  { apply float_leb_ltb_false. }
  assert (Hpositive : (0 <? x)%float = true -> (x <=? 0)%float = false).
  { intros H. destruct (x <=? 0)%float eqn:E; [|reflexivity].
    pose proof (float_leb_ltb_false _ _ E). congruence. }
  unfold renderStatusIndicator. fold x. fold threshold.
  destruct indicators_distinct as (D1 & D2 & D3 & D4 & D5 & D6).
  destruct ((0 <? x) && (x <? threshold))%float eqn:Hy.
  - apply andb_true_iff in Hy. destruct Hy as [Hy1 _].
    pose proof (Hpositive Hy1) as Hx.
    split; split; intros H; try congruence.
    + rewrite Hx in H. discriminate.
    + rewrite (Hgreen H) in Hx. discriminate.
  - destruct (threshold <=? x)%float eqn:Hr.
    + assert (Hx : (x <=? 0)%float = false).
      { destruct (x <=? 0)%float eqn:E; [|reflexivity].
        pose proof (float_leb_trans _ _ _ Hr E) as Hle.
        pose proof (float_leb_ltb_false _ _ Hle). congruence. }
      split; split; intros H; try congruence.
      * rewrite Hx in H. discriminate.
      * rewrite (Hgreen H) in Hx. discriminate.
    + pose proof (float_leb_total _ _ Hthr Hnum Hr) as Hlt.
      rewrite Hlt, andb_true_r in Hy.
      assert (Hle : (x <=? 0)%float = true).
      { destruct (x <=? 0)%float eqn:E; [reflexivity|].
        pose proof (float_leb_total _ _ Hnum Hzero E). congruence. }
      rewrite (float_leb_ltb_trans x 0%float cent Hle H0c), Hle. cbn [andb].
      destruct (- cent <? x)%float eqn:Hm; cbv iota.
      * split; split; intros H; try congruence; try reflexivity.
        discriminate (Hexcl H).
      * split; split; intros H; try congruence; try reflexivity.
        destruct (x <=? - cent)%float eqn:E; [reflexivity|].
        pose proof (float_leb_total _ _ Hnum Hmc E). congruence.
Qed.

End Neutral.

Lemma neutral_or_green_witness :
  renderStatusIndicator Sample.plain (JS.VFixed (JS.FixedDec true 0))
  = EmptyString
  <-> ((JS.ToNumber (JS.VFixed (JS.FixedDec true 0)) <=? 0)
       && (- JS.cent <? JS.ToNumber (JS.VFixed (JS.FixedDec true 0))))%float
      = true.
Proof.
  exact (proj1 (neutral_or_green Sample.plain
                  (JS.VFixed (JS.FixedDec true 0)) eq_refl eq_refl)).
Defined.

(** ** Title case *)

Section TitleCase.

Lemma toLower_facts (c : ascii) :
  Str.ws1 c = false ->
  Str.ws1 (Str.toLower c) = false
  /\ Str.toLower (Str.toLower c) = Str.toLower c.
Proof.
  destruct c as [[] [] [] [] [] [] [] []]; vm_compute; intros H;
    first [discriminate H | split; reflexivity].
Qed.

Lemma toUpper_facts (c : ascii) :
  Str.isWord c = true ->
  Str.isWord (Str.toUpper c) = true
  /\ Str.toUpper (Str.toUpper c) = Str.toUpper c.
Proof.
  destruct c as [[] [] [] [] [] [] [] []]; vm_compute; intros H;
    first [discriminate H | split; reflexivity].
Qed.

Lemma titleCaseFrom_idempotent (s : string) :
  forall inside,
    titleCaseFrom inside (titleCaseFrom inside s) = titleCaseFrom inside s.
Proof.
  induction s as [|c s IH]; intros inside; [reflexivity|].
  destruct inside; cbn [titleCaseFrom].
  - destruct (Str.ws1 c) eqn:Hws; cbn [titleCaseFrom].
    + rewrite Hws, IH. reflexivity.
    + destruct (toLower_facts c Hws) as [-> ->]. rewrite IH. reflexivity.
  - destruct (Str.isWord c) eqn:Hw; cbn [titleCaseFrom].
    + destruct (toUpper_facts c Hw) as [-> ->]. rewrite IH. reflexivity.
    + rewrite Hw, IH. reflexivity.
Qed.

(** X12.  Title case changes no length and is idempotent. *)
Theorem titleCase_idempotent (str : string) :
  String.length (titleCase str) = String.length str
  /\ titleCase (titleCase str) = titleCase str.
Proof.
  split; [|apply titleCaseFrom_idempotent].
  unfold titleCase. generalize false.
  induction str as [|c s IH]; intros inside; [reflexivity|].
  cbn [titleCaseFrom].
  destruct inside;
    [destruct (Str.ws1 c)|destruct (Str.isWord c)];
    cbn [String.length]; rewrite IH; reflexivity.
Qed.

(** Words in lower case with a hyphen, as [toWords] gives them. *)
Example titleCase_words :
  titleCase "twenty-one" = "Twenty-one"
  /\ titleCase "one hundred" = "One Hundred".
Proof. split; reflexivity. Qed.

End TitleCase.

(** ** Rounding to hundredths *)

(** For a number m / 2^k, the hundredths that [toFixed2] takes are the
    nearest ones, the larger ones at a tie: the distance to 100 m / 2^k is
    at most one half, reached only from below. *)
Lemma nearest_centi_nearest (m k : positive) :
  - 2 ^ Zpos k
  <= 200 * Zpos m - 2 ^ (Zpos k + 1) * JS.nearest_centi m (Zneg k)
  < 2 ^ Zpos k.
Proof.
  unfold JS.nearest_centi.
  assert (Hpow : 2 ^ (Zpos k + 1) = 2 * 2 ^ Zpos k)
    by (rewrite Z.pow_add_r by lia; lia).
  assert (Hpos : 0 < 2 ^ Zpos k) by (apply Z.pow_pos_nonneg; lia).
  rewrite Hpow.
  pose proof (Z.div_mod (200 * Zpos m + 2 ^ Zpos k) (2 * 2 ^ Zpos k)
                ltac:(lia)) as Hdm.
  pose proof (Z.mod_pos_bound (200 * Zpos m + 2 ^ Zpos k) (2 * 2 ^ Zpos k)
                ltac:(lia)) as Hb.
  lia.
Qed.

(** ** Reports that cannot be loaded *)

Section Loading.

Context {host : Host} {node : Node}.
Variable opts : options.

Lemma compare_not_LoadError (currentBundle baseBundle : report) :
  compare opts (Some currentBundle) (Some baseBundle) <> Fatal LoadError.
Proof.
  unfold compare.
  destruct (get currentBundle "__global") as [gC|]; [|discriminate].
  destruct (get baseBundle "__global") as [gB|]; [|discriminate].
  cbv zeta.
  destruct (globalSection opts (globalBundleChanges opts gC gB));
    [|discriminate].
  destruct (newSection opts _ gC); [|discriminate].
  destruct (changedSection opts _ gC gB); discriminate.
Qed.

Lemma require_cases (p : path) (w : world) :
  (exists r, loads p w r /\ require p w = Returns r w)
  \/ ((forall r, ~ loads p w r) /\ require p w = Throws LoadError w).
Proof.
  unfold require, loads.
  destruct (readFile p (files w)) as [content|] eqn:Hf.
  - destruct (parseJSON content) as [r|] eqn:Hp.
    + left. exists r. split; [exists content; auto|reflexivity].
    + right. split; [|reflexivity].
      intros r [c [Hc Hr]]. congruence.
  - right. split; [|reflexivity]. intros r [c [Hc _]]. discriminate.
Qed.

(** C9.  The run dies of a load error exactly when the file of the current
    report or the file of the base report is missing or does not parse;
    and a run that dies leaves the world as it was, with nothing logged and
    nothing written, and exits with a status that is not zero. *)
Theorem unloadable_report_is_fatal (w : world) :
  (script opts w = Throws LoadError w
   <-> (forall r, ~ loads (currentReport opts) w r)
       \/ (forall r, ~ loads (baseReport opts) w r))
  /\ (forall e w', script opts w = Throws e w' ->
        w' = w /\ exitCode (script opts w) <> 0).
Proof.
  unfold script, bind.
  destruct (require_cases (currentReport opts) w)
    as [(cur & Hcur & ->)|(Hcur & ->)].
  - destruct (require_cases (baseReport opts) w)
      as [(base & Hbase & ->)|(Hbase & ->)].
    + pose proof (compare_not_LoadError cur base) as Hne.
      destruct (compare opts (Some cur) (Some base))
        as [e|output dir file content]; simpl.
      * unfold throw. split.
        -- split.
           ++ intros H. injection H as ->. contradiction.
           ++ intros [H|H]; [destruct (H cur Hcur)|destruct (H base Hbase)].
        -- intros e' w' H. injection H as _ <-. split; [reflexivity|].
           discriminate.
      * split.
        -- split; [discriminate|].
           intros [H|H]; [destruct (H cur Hcur)|destruct (H base Hbase)].
        -- intros e' w' H. discriminate.
    + split.
      * split; auto.
      * intros e w' H. injection H as _ <-. split; [reflexivity|].
        discriminate.
  - split.
    + split; auto.
    + intros e w' H. injection H as _ <-. split; [reflexivity|].
      discriminate.
Qed.

End Loading.

Lemma unloadable_report_is_fatal_witness :
  script (host := Sample.host) (node := Sample.node) Sample.plain Sample.noBase
  = Throws LoadError Sample.noBase.
Proof.
  apply (proj1 (unloadable_report_is_fatal (host := Sample.host)
                  (node := Sample.node) Sample.plain Sample.noBase)).
  right. intros r [content [Hc _]]. discriminate Hc.
Defined.
